(** * Context extractor: a shallow embedding of [context.py]

    The development follows the structure of the program:
    - [Py]: the Python string operations the program relies on;
    - [Re]: the fragment of Python's backtracking [re] engine the patterns of
      the program use;
    - the recognizers of [CodeContextExtractor], written in state-passing
      style over the project index (the attributes of [self]);
    - the run coordinator [extract_context] and the renderer.

    Text is modelled as a [string] of 8-bit characters; the character classes
    [\s] and [\w] are the ASCII ones. *)

From Stdlib Require Import Ascii String ZArith Bool List Lia.
From stdpp Require Import base option list gmap strings.
Import ListNotations.

Local Open Scope nat_scope.

(** ** Python string operations *)

Module Py.

Definition code (c : ascii) : nat := nat_of_ascii c.

Definition between (lo hi : nat) (c : ascii) : bool :=
  (lo <=? code c) && (code c <=? hi).

(** [str.isspace] on the ASCII range: TAB..CR, FS..US and the blank. *)
Definition is_space (c : ascii) : bool :=
  between 9 13 c || between 28 31 c || (code c =? 32).

Definition is_upper (c : ascii) : bool := between 65 90 c.
Definition is_lower (c : ascii) : bool := between 97 122 c.
Definition is_digit (c : ascii) : bool := between 48 57 c.
Definition is_alpha (c : ascii) : bool := is_upper c || is_lower c.

(** [\w]: letters, digits and the underscore. *)
Definition is_word (c : ascii) : bool :=
  is_alpha c || is_digit c || (code c =? 95).

Definition upper_char (c : ascii) : ascii :=
  if is_lower c then ascii_of_nat (code c - 32) else c.
Definition lower_char (c : ascii) : ascii :=
  if is_upper c then ascii_of_nat (code c + 32) else c.

Fixpoint map_chars (f : ascii -> ascii) (s : string) : string :=
  match s with
  | EmptyString => EmptyString
  | String c s' => String (f c) (map_chars f s')
  end.

(** [s.upper()] and [s.lower()]. *)
Definition upper : string -> string := map_chars upper_char.
Definition lower : string -> string := map_chars lower_char.

Definition len : string -> nat := String.length.

(** Truth value of a string and of an optional string ([None] and the empty
    string are both false). *)
Definition truthy (s : string) : bool :=
  match s with EmptyString => false | _ => true end.

Definition otruthy (o : option string) : bool :=
  match o with Some s => truthy s | None => false end.

(** [a or b] on optional strings. *)
Definition oor (a b : option string) : option string :=
  if otruthy a then a else b.

Fixpoint rev_acc (s acc : string) : string :=
  match s with
  | EmptyString => acc
  | String c s' => rev_acc s' (String c acc)
  end.

Definition rev (s : string) : string := rev_acc s EmptyString.

(** Drop the leading characters satisfying [p]. *)
Fixpoint lstrip_with (p : ascii -> bool) (s : string) : string :=
  match s with
  | EmptyString => EmptyString
  | String c s' => if p c then lstrip_with p s' else s
  end.

Definition rstrip_with (p : ascii -> bool) (s : string) : string :=
  rev (lstrip_with p (rev s)).

Definition strip_with (p : ascii -> bool) (s : string) : string :=
  rstrip_with p (lstrip_with p s).

Fixpoint mem_char (c : ascii) (chars : string) : bool :=
  match chars with
  | EmptyString => false
  | String d chars' => Ascii.eqb c d || mem_char c chars'
  end.

(** [s.strip()], [s.strip(chars)] and [s.rstrip(chars)]. *)
Definition strip (s : string) : string := strip_with is_space s.
Definition strip_chars (chars s : string) : string :=
  strip_with (fun c => mem_char c chars) s.
Definition rstrip_chars (chars s : string) : string :=
  rstrip_with (fun c => mem_char c chars) s.

(** [s.startswith(p)]. *)
Fixpoint startswith (p s : string) : bool :=
  match p, s with
  | EmptyString, _ => true
  | String a p', String b s' => Ascii.eqb a b && startswith p' s'
  | String _ _, EmptyString => false
  end.

Definition endswith (p s : string) : bool := startswith (rev p) (rev s).

(** [sub in s]. *)
Fixpoint contains (sub s : string) : bool :=
  startswith sub s ||
  match s with
  | EmptyString => false
  | String _ s' => contains sub s'
  end.

(** [s[i:]] and [s[:n]] for non-negative bounds. *)
Fixpoint drop (i : nat) (s : string) : string :=
  match i, s with
  | S i', String _ s' => drop i' s'
  | _, _ => s
  end.

Fixpoint take (n : nat) (s : string) : string :=
  match n, s with
  | S n', String c s' => String c (take n' s')
  | _, _ => EmptyString
  end.

(** [s[i:j]]. *)
Definition slice (i j : nat) (s : string) : string := take (j - i) (drop i s).

(** [s[:-n]]. *)
Definition drop_last (n : nat) (s : string) : string := take (len s - n) s.

(** [s.count(sub)] for a non-empty [sub]: non-overlapping occurrences, left
    to right.  [skip] is the number of characters still covered by the
    occurrence found last. *)
Fixpoint count_from (sub s : string) (skip : nat) : nat :=
  match s with
  | EmptyString => 0
  | String _ s' =>
      match skip with
      | S k => count_from sub s' k
      | O => if startswith sub s then S (count_from sub s' (len sub - 1))
             else count_from sub s' 0
      end
  end.

Definition count (sub s : string) : nat := count_from sub s 0.

(** [s.find(sub, start)]: the index of the first occurrence at or after
    [start], [None] standing for -1. *)
Fixpoint find_aux (sub s : string) (pos : nat) : option nat :=
  if startswith sub s then Some pos
  else match s with
       | EmptyString => None
       | String _ s' => find_aux sub s' (S pos)
       end.

Definition find (sub s : string) (start : nat) : option nat :=
  if len s <? start then None else find_aux sub (drop start s) start.

(** [s.split(sep)] for a one-character separator. *)
Fixpoint split_acc (sep : ascii) (s cur : string) : list string :=
  match s with
  | EmptyString => [rev cur]
  | String c s' =>
      if Ascii.eqb c sep then rev cur :: split_acc sep s' EmptyString
      else split_acc sep s' (String c cur)
  end.

Definition split (sep : ascii) (s : string) : list string :=
  split_acc sep s EmptyString.

(** [s.split()]: the maximal runs of non-blank characters. *)
Fixpoint words_acc (s cur : string) : list string :=
  match s with
  | EmptyString => if truthy cur then [rev cur] else []
  | String c s' =>
      if is_space c
      then (if truthy cur then rev cur :: words_acc s' EmptyString
            else words_acc s' EmptyString)
      else words_acc s' (String c cur)
  end.

Definition words (s : string) : list string := words_acc s EmptyString.

(** [sep.join(l)]. *)
Fixpoint join (sep : string) (l : list string) : string :=
  match l with
  | [] => EmptyString
  | [x] => x
  | x :: l' => x +:+ sep +:+ join sep l'
  end.

(** [str(n)] for a non-negative integer. *)
Definition digit_char (d : nat) : ascii := ascii_of_nat (48 + d).

Fixpoint str_nat_aux (fuel n : nat) (acc : string) : string :=
  match fuel with
  | O => acc
  | S fuel' =>
      let acc' := String (digit_char (n mod 10)) acc in
      if n <? 10 then acc' else str_nat_aux fuel' (n / 10) acc'
  end.

Definition str_nat (n : nat) : string := str_nat_aux (S n) n EmptyString.

(** [l[i]] and [l[-1]]; [None] stands for [IndexError]. *)
Definition index {A} (l : list A) (i : nat) : option A := l !! i.
Definition last_item {A} (l : list A) : option A := last l.

(** [os.path.basename] for POSIX paths. *)
Definition basename (p : string) : string :=
  List.last (split "/" p) EmptyString.

End Py.

(** ** The regular-expression engine

    Python's [re] is a backtracking matcher: alternatives are tried left to
    right, a greedy repetition tries the longest run first and gives
    characters back one at a time, a lazy one tries the shortest first.  All
    repetitions in the patterns of the program range over a single character
    class, so [Many] repeats a class; [x+] is [x] followed by [x*], and [r?]
    is [r|()]. *)

Module Re.

(** One item of a bracketed class. *)
Inductive citem : Type :=
| Ch (c : ascii)             (* a literal character *)
| Range (lo hi : ascii)      (* [lo-hi] *)
| Space                      (* \s *)
| Word.                      (* \w *)

Inductive cls : Type :=
| Any                        (* . *)
| OneOf (items : list citem) (* [...], or one literal or escape *)
| NoneOf (items : list citem). (* [^...] *)

Inductive re : Type :=
| Eps
| One (c : cls)
| Many (greedy : bool) (c : cls)   (* c* when greedy, c*? otherwise *)
| Cat (r1 r2 : re)
| Alt (r1 r2 : re)
| Group (n : nat) (r : re)         (* capturing group number n *)
| Bol                              (* ^ *)
| WordB.                           (* \b *)

(** [re.IGNORECASE] and [re.DOTALL]. *)
Record flags : Type := { ignorecase : bool; dotall : bool }.

Definition no_flags : flags := {| ignorecase := false; dotall := false |}.
Definition flag_I : flags := {| ignorecase := true; dotall := false |}.
Definition flag_IS : flags := {| ignorecase := true; dotall := true |}.
Definition flag_S : flags := {| ignorecase := false; dotall := true |}.

Definition item_raw (it : citem) (c : ascii) : bool :=
  match it with
  | Ch d => Ascii.eqb c d
  | Range lo hi => Py.between (Py.code lo) (Py.code hi) c
  | Space => Py.is_space c
  | Word => Py.is_word c
  end.

Definition item_match (fl : flags) (it : citem) (c : ascii) : bool :=
  item_raw it c ||
  (ignorecase fl && (item_raw it (Py.lower_char c) || item_raw it (Py.upper_char c))).

Definition newline : ascii := "010".

Definition cls_match (fl : flags) (cl : cls) (c : ascii) : bool :=
  match cl with
  | Any => dotall fl || negb (Ascii.eqb c newline)
  | OneOf items => existsb (fun it => item_match fl it c) items
  | NoneOf items => negb (existsb (fun it => item_match fl it c) items)
  end.

(** Captured groups, most recent first. *)
Definition caps : Type := list (nat * string).

Fixpoint get_cap (n : nat) (cs : caps) : option string :=
  match cs with
  | [] => None
  | (k, v) :: cs' => if n =? k then Some v else get_cap n cs'
  end.

(** The matcher threads the character before the cursor (for [\b]), the text
    after the cursor, the cursor position and the groups captured so far; [k]
    is what remains to be matched.  A failing [k] makes the matcher backtrack
    into the choice points of [r]. *)
Definition cont : Type :=
  option ascii -> string -> nat -> caps -> option (nat * caps).

Definition word_before (prev : option ascii) : bool :=
  match prev with Some a => Py.is_word a | None => false end.

Definition word_after (s : string) : bool :=
  match s with String a _ => Py.is_word a | EmptyString => false end.

Fixpoint run (fl : flags) (r : re) (prev : option ascii) (s : string)
    (pos : nat) (cs : caps) (k : cont) {struct r} : option (nat * caps) :=
  match r with
  | Eps => k prev s pos cs
  | One c =>
      match s with
      | String a s' => if cls_match fl c a then k (Some a) s' (S pos) cs else None
      | EmptyString => None
      end
  | Many greedy c =>
      (fix loop (prev : option ascii) (s : string) (pos : nat) {struct s} :=
         match s with
         | String a s' =>
             if cls_match fl c a then
               if greedy then
                 match loop (Some a) s' (S pos) with
                 | Some res => Some res
                 | None => k prev s pos cs
                 end
               else
                 match k prev s pos cs with
                 | Some res => Some res
                 | None => loop (Some a) s' (S pos)
                 end
             else k prev s pos cs
         | EmptyString => k prev s pos cs
         end) prev s pos
  | Cat r1 r2 =>
      run fl r1 prev s pos cs
        (fun prev' s' pos' cs' => run fl r2 prev' s' pos' cs' k)
  | Alt r1 r2 =>
      match run fl r1 prev s pos cs k with
      | Some res => Some res
      | None => run fl r2 prev s pos cs k
      end
  | Group n r1 =>
      run fl r1 prev s pos cs
        (fun prev' s' pos' cs' => k prev' s' pos' ((n, Py.take (pos' - pos) s) :: cs'))
  | Bol => if pos =? 0 then k prev s pos cs else None
  | WordB => if xorb (word_before prev) (word_after s) then k prev s pos cs else None
  end.

(** A match object: [m.start()], [m.end()], [m.group(0)] and the groups. *)
Record mres : Type := {
  m_start : nat;
  m_end : nat;
  m_text : string;
  m_caps : caps
}.

(** [m.group(n)]; [None] for a group that took no part in the match. *)
Definition group (m : mres) (n : nat) : option string :=
  match n with
  | O => Some (m_text m)
  | _ => get_cap n (m_caps m)
  end.

(** [m.group(n)] for a group that the pattern always sets. *)
Definition group_str (m : mres) (n : nat) : string :=
  default EmptyString (group m n).

Definition match_at (fl : flags) (r : re) (prev : option ascii) (s : string)
    (pos : nat) : option mres :=
  match run fl r prev s pos [] (fun _ _ pos' cs' => Some (pos', cs')) with
  | Some (e, cs) =>
      Some {| m_start := pos; m_end := e; m_text := Py.take (e - pos) s; m_caps := cs |}
  | None => None
  end.

(** [re.finditer]: the leftmost match, then the leftmost match after its end,
    and so on.  [skip] counts the characters still covered by the last match.
    (No pattern of the program matches the empty string; after an empty match
    the scan moves on by one character.) *)
Fixpoint scan (fl : flags) (r : re) (prev : option ascii) (s : string)
    (pos skip : nat) : list mres :=
  match s with
  | EmptyString =>
      match skip with
      | O => match match_at fl r prev s pos with Some m => [m] | None => [] end
      | S _ => []
      end
  | String c s' =>
      match skip with
      | S k => scan fl r (Some c) s' (S pos) k
      | O =>
          match match_at fl r prev s pos with
          | Some m => m :: scan fl r (Some c) s' (S pos) (m_end m - pos - 1)
          | None => scan fl r (Some c) s' (S pos) 0
          end
      end
  end.

Definition finditer (fl : flags) (r : re) (s : string) : list mres :=
  scan fl r None s 0 0.

(** [re.search]: the first match of the scan. *)
Definition search (fl : flags) (r : re) (s : string) : option mres :=
  head (finditer fl r s).

(** [re.match]: a match at the start of the text only. *)
Definition match_ (fl : flags) (r : re) (s : string) : option mres :=
  match_at fl r None s 0.

(** *** Pattern syntax *)

Definition chr (c : ascii) : re := One (OneOf [Ch c]).

Fixpoint lit (s : string) : re :=
  match s with
  | EmptyString => Eps
  | String c s' => Cat (chr c) (lit s')
  end.

Definition star (c : cls) : re := Many true c.
Definition lazy_star (c : cls) : re := Many false c.
Definition plus (c : cls) : re := Cat (One c) (Many true c).
Definition opt (r : re) : re := Alt r Eps.

Fixpoint seq (rs : list re) : re :=
  match rs with
  | [] => Eps
  | r :: rs' => Cat r (seq rs')
  end.

Fixpoint alts (rs : list re) : re :=
  match rs with
  | [] => Eps
  | [r] => r
  | r :: rs' => Alt r (alts rs')
  end.

Definition sp : cls := OneOf [Space].   (* \s *)
Definition w : cls := OneOf [Word].     (* \w *)
Definition ws0 : re := star sp.         (* \s* *)
Definition ws1 : re := plus sp.         (* \s+ *)
Definition dquote : ascii := "034".
Definition squote : ascii := "039".
Definition bquote : ascii := "096".

End Re.

Import Re.

(** ** Persistence schemas: [extract_database_schema] *)

(** The records of a schema, as the dictionaries the recognizer builds. *)
Record column : Type := {
  col_name : string;
  col_type : string;
  col_nullable : bool;
  col_default : option string     (* the key 'default' is set only on a match *)
}.

Record foreign_key : Type := {
  fk_column : string;
  fk_ref_table : string;
  fk_ref_column : string
}.

Record db_index : Type := {
  idx_name : string;
  idx_columns : list string;
  idx_unique : bool
}.

Record schema : Type := {
  table_name : string;
  columns : list column;
  primary_keys : list string;
  foreign_keys : list foreign_key;
  indices : list db_index;
  description : option string;
  schema_file_path : string
}.

(** The two quote characters stripped from identifiers: backquote and
    double quote.  In the patterns quoted in comments, DQ stands for the
    double-quote character, and a blank separates a star from a closing
    parenthesis that follows it. *)
Definition quote_chars : string := String bquote (String dquote EmptyString).
Definition quoted_word : cls := OneOf [Ch bquote; Ch dquote; Word].  (* [`DQ\w] *)
Definition quote_cls : cls := OneOf [Ch squote; Ch dquote].          (* ['DQ] *)
Definition not_quote_cls : cls := NoneOf [Ch squote; Ch dquote].     (* [^'DQ] *)

(** (?:const|let|var|export\s+const)\s+(\w+)_DATABASE_NAME\s*=\s*['DQ]([^'DQ]+)['DQ] *)
Definition db_name_pattern : re :=
  seq [alts [lit "const"; lit "let"; lit "var"; seq [lit "export"; ws1; lit "const"]];
       ws1; Group 1 (plus w); lit "_DATABASE_NAME"; ws0; lit "="; ws0;
       One quote_cls; Group 2 (plus not_quote_cls); One quote_cls].

(** CREATE\s+TABLE\s+(?:IF\s+NOT\s+EXISTS\s+)?(?:([`DQ\w]+)|[$]{([^}]+)})\s*\(([^;]+)\) *)
Definition table_pattern : re :=
  seq [lit "CREATE"; ws1; lit "TABLE"; ws1;
       opt (seq [lit "IF"; ws1; lit "NOT"; ws1; lit "EXISTS"; ws1]);
       Alt (Group 1 (plus quoted_word))
           (seq [lit "${"; Group 2 (plus (NoneOf [Ch "}"])); lit "}"]);
       ws0; lit "("; Group 3 (plus (NoneOf [Ch ";"])); lit ")"].

(** ^\s*(?:CONSTRAINT|PRIMARY\s+KEY|FOREIGN\s+KEY|UNIQUE|CHECK) *)
Definition constraint_pattern : re :=
  seq [Bol; ws0;
       alts [lit "CONSTRAINT"; seq [lit "PRIMARY"; ws1; lit "KEY"];
             seq [lit "FOREIGN"; ws1; lit "KEY"]; lit "UNIQUE"; lit "CHECK"]].

(** PRIMARY\s+KEY  and  PRIMARY\s+KEY\s*\(([^)]+)\) *)
Definition pk_word_pattern : re := seq [lit "PRIMARY"; ws1; lit "KEY"].
Definition pk_pattern : re :=
  seq [lit "PRIMARY"; ws1; lit "KEY"; ws0; lit "(";
       Group 1 (plus (NoneOf [Ch ")"])); lit ")"].

(** FOREIGN\s+KEY  and
    FOREIGN\s+KEY\s*\(([^)]+)\)\s*REFERENCES\s*([`DQ\w]+|\${[^}]+})\s*\(([^)]+)\) *)
Definition fk_word_pattern : re := seq [lit "FOREIGN"; ws1; lit "KEY"].
Definition fk_pattern : re :=
  seq [lit "FOREIGN"; ws1; lit "KEY"; ws0; lit "(";
       Group 1 (plus (NoneOf [Ch ")"])); lit ")"; ws0; lit "REFERENCES"; ws0;
       Group 2 (Alt (plus quoted_word)
                    (seq [lit "${"; plus (NoneOf [Ch "}"]); lit "}"]));
       ws0; lit "("; Group 3 (plus (NoneOf [Ch ")"])); lit ")"].

(** DEFAULT\s+([^,\s]+) *)
Definition default_pattern : re :=
  seq [lit "DEFAULT"; ws1; Group 1 (plus (NoneOf [Ch ","; Space]))].

(** CREATE\s+(?:UNIQUE\s+)?INDEX\s+(?:IF\s+NOT\s+EXISTS\s+)?(\w+)\s+ON\s+
    (?:([`DQ\w]+)|[$]{([^}]+)})\s*\(([^)]+)\) *)
Definition index_pattern : re :=
  seq [lit "CREATE"; ws1; opt (seq [lit "UNIQUE"; ws1]); lit "INDEX"; ws1;
       opt (seq [lit "IF"; ws1; lit "NOT"; ws1; lit "EXISTS"; ws1]);
       Group 1 (plus w); ws1; lit "ON"; ws1;
       Alt (Group 2 (plus quoted_word))
           (seq [lit "${"; Group 3 (plus (NoneOf [Ch "}"])); lit "}"]);
       ws0; lit "("; Group 4 (plus (NoneOf [Ch ")"])); lit ")"].

(** The constants [X_DATABASE_NAME = '...']: each is stored under [X] and
    under [X_DATABASE_NAME]. *)
Definition collect_db_names (content : string) : gmap string string :=
  foldl (fun db_names m =>
           let prefix := group_str m 1 in
           let value := group_str m 2 in
           <[prefix +:+ "_DATABASE_NAME" := value]> (<[prefix := value]> db_names))
        ∅ (finditer no_flags db_name_pattern content).

(** The loop that splits the body of a table definition on the commas that
    are not inside parentheses.  Returns the lines found and the text after
    the last split. *)
Fixpoint split_columns (columns_def current_line : string) (paren_count : Z)
    (column_lines : list string) : list string * string :=
  match columns_def with
  | EmptyString => (column_lines, current_line)
  | String char rest =>
      let current_line := current_line +:+ String char EmptyString in
      if Ascii.eqb char "(" then
        split_columns rest current_line (paren_count + 1) column_lines
      else if Ascii.eqb char ")" then
        split_columns rest current_line (paren_count - 1) column_lines
      else if Ascii.eqb char "," && (paren_count =? 0)%Z then
        split_columns rest EmptyString paren_count
          (column_lines ++ [Py.rstrip_chars "," (Py.strip current_line)])
      else split_columns rest current_line paren_count column_lines
  end.

Definition column_lines_of (columns_def : string) : list string :=
  let '(column_lines, current_line) := split_columns columns_def EmptyString 0 [] in
  if Py.truthy (Py.strip current_line)
  then column_lines ++ [Py.strip current_line]
  else column_lines.

(** [[c.strip('`DQ') for c in text.split(',')]] *)
Definition split_names (text : string) : list string :=
  map (Py.strip_chars quote_chars) (Py.split "," text).

(** The referenced table of a foreign key, a [${VAR}] being resolved through
    the known constants. *)
Definition resolve_ref_table (db_names : gmap string string) (ref_table : string)
    : string :=
  if Py.startswith "${" ref_table && Py.endswith "}" ref_table then
    let var_name := Py.drop_last 1 (Py.drop 2 ref_table) in
    match db_names !! var_name with
    | Some v => v
    | None => var_name +:+ " (variable)"
    end
  else ref_table.

(** [for i, fk_col in enumerate(fk_cols)]: one record per local column, the
    referenced column being [ref_cols[i]] when there is one and [ref_cols[-1]]
    otherwise.  [None] stands for the [IndexError] of an empty [ref_cols]. *)
Fixpoint fk_records (i : nat) (fk_cols : list string) (ref_table : string)
    (ref_cols : list string) : option (list foreign_key) :=
  match fk_cols with
  | [] => Some []
  | fk_col :: rest =>
      ref_col ← (if i <? length ref_cols then Py.index ref_cols i
                 else Py.last_item ref_cols);
      fks ← fk_records (S i) rest ref_table ref_cols;
      Some ({| fk_column := fk_col; fk_ref_table := ref_table;
               fk_ref_column := ref_col |} :: fks)
  end.

(** The three lists a table definition accumulates. *)
Record table_acc : Type := {
  acc_columns : list column;
  acc_primary_keys : list string;
  acc_foreign_keys : list foreign_key
}.

Definition constraint_primary_keys (line : string) : list string :=
  match search flag_I pk_word_pattern line with
  | None => []
  | Some _ =>
      match search flag_I pk_pattern line with
      | Some pk_match => split_names (group_str pk_match 1)
      | None => []
      end
  end.

Definition constraint_foreign_keys (db_names : gmap string string) (line : string)
    : option (list foreign_key) :=
  match search flag_I fk_word_pattern line with
  | None => Some []
  | Some _ =>
      match search flag_I fk_pattern line with
      | Some fk_match =>
          let fk_cols := split_names (group_str fk_match 1) in
          let ref_table :=
            resolve_ref_table db_names
              (Py.strip_chars quote_chars (group_str fk_match 2)) in
          let ref_cols := split_names (group_str fk_match 3) in
          fk_records 0 fk_cols ref_table ref_cols
      | None => Some []
      end
  end.

(** One segment of the body: a constraint or a column definition. *)
Definition process_line (db_names : gmap string string) (acc : table_acc)
    (line : string) : option table_acc :=
  match match_ flag_I constraint_pattern line with
  | Some _ =>
      let pks := constraint_primary_keys line in
      fks ← constraint_foreign_keys db_names line;
      Some {| acc_columns := acc_columns acc;
              acc_primary_keys := acc_primary_keys acc ++ pks;
              acc_foreign_keys := acc_foreign_keys acc ++ fks |}
  | None =>
      match Py.words line with
      | p0 :: p1 :: _ =>
          let col_name := Py.strip_chars quote_chars p0 in
          let col_type := default EmptyString (head (Py.split "(" p1)) in
          let upper := Py.upper line in
          let col := {|
            col_name := col_name;
            col_type := col_type;
            col_nullable := negb (Py.contains "NOT NULL" upper);
            col_default :=
              if Py.contains "DEFAULT" upper then
                match search flag_I default_pattern line with
                | Some default_match => Some (group_str default_match 1)
                | None => None
                end
              else None |} in
          Some {| acc_columns := acc_columns acc ++ [col];
                  acc_primary_keys :=
                    if Py.contains "PRIMARY KEY" upper
                    then acc_primary_keys acc ++ [col_name]
                    else acc_primary_keys acc;
                  acc_foreign_keys := acc_foreign_keys acc |}
      | _ => Some acc
      end
  end.

Fixpoint process_lines (db_names : gmap string string) (acc : table_acc)
    (lines : list string) : option table_acc :=
  match lines with
  | [] => Some acc
  | line :: rest =>
      acc' ← process_line db_names acc line;
      process_lines db_names acc' rest
  end.

(** The [CREATE INDEX] statements of the file that belong to [table_name]. *)
Definition table_indices (db_names : gmap string string) (content table_name : string)
    : list db_index :=
  omap (fun idx_match =>
          let idx_table0 :=
            if Py.otruthy (group idx_match 2) then group_str idx_match 2
            else group_str idx_match 3 in
          let idx_table :=
            if negb (Py.otruthy (group idx_match 2)) then
              default idx_table0 (db_names !! idx_table0)
            else idx_table0 in
          if String.eqb idx_table table_name
             || (Py.endswith " (variable)" table_name
                 && String.eqb idx_table (Py.drop_last 11 table_name))
          then Some {| idx_name := group_str idx_match 1;
                       idx_columns := split_names (group_str idx_match 4);
                       idx_unique := Py.contains "UNIQUE" (Py.upper (m_text idx_match)) |}
          else None)
       (finditer flag_I index_pattern content).

(** One [CREATE TABLE] match. *)
Definition table_schema (db_names : gmap string string) (content file_path : string)
    (m : mres) : option schema :=
  let direct := Py.otruthy (group m 1) in
  let table_name0 := if direct then group_str m 1 else group_str m 2 in
  let columns_def := Py.strip (group_str m 3) in
  let table_name :=
    if negb direct then
      match db_names !! table_name0 with
      | Some v => v
      | None => table_name0 +:+ " (variable)"
      end
    else Py.strip_chars quote_chars table_name0 in
  acc ← process_lines db_names
         {| acc_columns := []; acc_primary_keys := []; acc_foreign_keys := [] |}
         (column_lines_of columns_def);
  Some {| table_name := table_name;
          columns := acc_columns acc;
          primary_keys := acc_primary_keys acc;
          foreign_keys := acc_foreign_keys acc;
          indices := table_indices db_names content table_name;
          description := None;
          schema_file_path := file_path |}.

Fixpoint table_schemas (db_names : gmap string string) (content file_path : string)
    (ms : list mres) : option (list schema) :=
  match ms with
  | [] => Some []
  | m :: rest =>
      s ← table_schema db_names content file_path m;
      ss ← table_schemas db_names content file_path rest;
      Some (s :: ss)
  end.

(** [extract_database_schema(content, file_path)['schemas']]; [None] stands
    for an exception raised on the way. *)
Definition extract_database_schema (content file_path : string)
    : option (list schema) :=
  let db_names := collect_db_names content in
  table_schemas db_names content file_path
    (finditer flag_IS table_pattern content).

(** ** Fact records

    Each record is one of the dictionaries the recognizers build; a key that
    a dictionary may lack is an [option], and a list-valued key that is set
    only when non-empty is the list itself (every reader goes through
    [.get]). *)

Record param : Type := { p_name : string; p_type : string }.

Record component : Type := {
  c_name : string;
  c_type : string;                       (* 'functional' or 'class' *)
  c_file_path : string;
  c_props : list param;
  c_hooks_used : list string;
  c_api_calls : list string;
  c_complexity : nat;
  c_performance_issues : list string;
  c_react_native_issues : list string;
  c_state_flows : list (string * list string)   (* child -> states passed *)
}.

Record complexity_entry : Type := {
  cx_name : string; cx_file_path : string; cx_complexity : nat
}.

Record issue_entry : Type := {
  is_component : string; is_file_path : string; is_issues : list string
}.

Record hook : Type := {
  h_name : string;
  h_file_path : string;
  h_params : list param;
  h_returns : list string;
  h_uses_hooks : list string;
  h_api_calls : list string
}.

Record method : Type := {
  mt_name : string; mt_params : list param; mt_return_type : option string
}.

Record service : Type := {
  s_name : string;
  s_file_path : string;
  s_parent_class : option string;
  s_is_singleton : bool;
  s_methods : list method;
  s_api_endpoints : list string
}.

Record endpoint : Type := {
  e_endpoint : string; e_service : string; e_file_path : string
}.

Record interface : Type := {
  i_name : string;
  i_file_path : string;
  i_parent : option string;
  i_properties : list param
}.

(** The value stored under an interface name in [self.interfaces]. *)
Record interface_entry : Type := {
  ie_file_path : string; ie_parent : option string; ie_properties : list param
}.

Record type_alias : Type := {
  t_name : string; t_file_path : string; t_definition : string
}.

Record enum_value : Type := { ev_name : string; ev_value : option string }.

Record enum : Type := {
  en_name : string; en_file_path : string; en_values : list enum_value
}.

Record types_info : Type := {
  ti_interfaces : list interface;
  ti_types : list type_alias;
  ti_enums : list enum
}.

Record route : Type := {
  r_name : string; r_component : option string; r_file_path : string
}.

Record state_pattern : Type := {
  sp_type : string; sp_name : string; sp_slice : option string; sp_file_path : string
}.

Record import_info : Type := { im_module : string; im_imports : list string }.

Record file_summary : Type := { fs_path : string; fs_lines : list string }.

(** The facts of the enhanced analyses, with the keys the renderer reads. *)
Record dependency : Type := {
  dep_type : string; dep_name : option string; dep_source : string
}.

Inductive complex_type : Type :=
| CTInterface (name : string) (extends : option string) (properties : list param)
    (file_path : string)
| CTAlias (name definition file_path category : string).

Record enhanced_endpoint : Type := {
  ee_endpoint : string;
  ee_method : string;
  ee_request_data : option string;
  ee_function : option string;
  ee_return_type : option string;
  ee_file_path : string
}.

Record style_definition : Type := {
  sd_name : string; sd_content : string; sd_file_path : string
}.

Record hook_state : Type := {
  hs_name : string; hs_setter : string; hs_initial_value : string
}.
Record hook_effect : Type := { he_body : string; he_dependencies : list string }.
Record hook_memo : Type := {
  hm_type : string; hm_body : string; hm_dependencies : list string
}.
Record hook_definition : Type := {
  hd_name : string;
  hd_file_path : string;
  hd_states : list hook_state;
  hd_effects : list hook_effect;
  hd_memoized : list hook_memo
}.

Record nav_route : Type := {
  nr_type : string; nr_name : string; nr_options : string; nr_file_path : string
}.

Record security_concern : Type := {
  sc_issue : string; sc_pattern : string; sc_context : string; sc_file_path : string
}.

(** ** The project index

    The attributes of [self] that the program writes.  ([component_hierarchy],
    [api_flows] and [prop_flows] are initialised and never written.)
    Dictionaries keyed by name are finite maps; [defaultdict(set)] is a map
    to finite sets, an absent key standing for the empty set. *)

Record index : Type := {
  component_props : gmap string (list param);
  hooks : list hook;
  services : list service;
  api_endpoints : list endpoint;
  interfaces : gmap string interface_entry;
  state_management : list state_pattern;
  navigation_routes : list route;
  file_summaries : list file_summary;
  total_lines : Z;
  hook_usages : gmap string (gset string);
  api_calls : gmap string (gset string);
  component_complexity : list complexity_entry;
  files : list (string * string);
  performance_issues : list issue_entry;
  react_native_issues : list issue_entry;
  state_flows : gmap string (list (string * list string));
  database_schemas : list schema;
  import_dependencies : list dependency;
  complex_types : list complex_type;
  enhanced_api_endpoints : list enhanced_endpoint;
  style_patterns : list style_definition;
  hook_usages_analysis : list hook_definition;
  enhanced_navigation : list nav_route;
  security_patterns : list security_concern
}.

(** [CodeContextExtractor.__init__]: every collection starts empty. *)
Definition init_index : index := {|
  component_props := ∅;
  hooks := [];
  services := [];
  api_endpoints := [];
  interfaces := ∅;
  state_management := [];
  navigation_routes := [];
  file_summaries := [];
  total_lines := 0%Z;
  hook_usages := ∅;
  api_calls := ∅;
  component_complexity := [];
  files := [];
  performance_issues := [];
  react_native_issues := [];
  state_flows := ∅;
  database_schemas := [];
  import_dependencies := [];
  complex_types := [];
  enhanced_api_endpoints := [];
  style_patterns := [];
  hook_usages_analysis := [];
  enhanced_navigation := [];
  security_patterns := []
|}.

(** Assignment to one attribute of [self], the others unchanged. *)
Definition set_component_props (v : gmap string (list param)) (st : index) : index :=
  {| component_props := v; hooks := hooks st; services := services st;
     api_endpoints := api_endpoints st; interfaces := interfaces st;
     state_management := state_management st; navigation_routes := navigation_routes st;
     file_summaries := file_summaries st; total_lines := total_lines st;
     hook_usages := hook_usages st; api_calls := api_calls st;
     component_complexity := component_complexity st; files := files st;
     performance_issues := performance_issues st; react_native_issues := react_native_issues st;
     state_flows := state_flows st; database_schemas := database_schemas st;
     import_dependencies := import_dependencies st; complex_types := complex_types st;
     enhanced_api_endpoints := enhanced_api_endpoints st; style_patterns := style_patterns st;
     hook_usages_analysis := hook_usages_analysis st;
     enhanced_navigation := enhanced_navigation st; security_patterns := security_patterns st |}.

Definition set_hooks (v : list hook) (st : index) : index :=
  {| component_props := component_props st; hooks := v; services := services st;
     api_endpoints := api_endpoints st; interfaces := interfaces st;
     state_management := state_management st; navigation_routes := navigation_routes st;
     file_summaries := file_summaries st; total_lines := total_lines st;
     hook_usages := hook_usages st; api_calls := api_calls st;
     component_complexity := component_complexity st; files := files st;
     performance_issues := performance_issues st; react_native_issues := react_native_issues st;
     state_flows := state_flows st; database_schemas := database_schemas st;
     import_dependencies := import_dependencies st; complex_types := complex_types st;
     enhanced_api_endpoints := enhanced_api_endpoints st; style_patterns := style_patterns st;
     hook_usages_analysis := hook_usages_analysis st;
     enhanced_navigation := enhanced_navigation st; security_patterns := security_patterns st |}.

Definition set_services (v : list service) (st : index) : index :=
  {| component_props := component_props st; hooks := hooks st; services := v;
     api_endpoints := api_endpoints st; interfaces := interfaces st;
     state_management := state_management st; navigation_routes := navigation_routes st;
     file_summaries := file_summaries st; total_lines := total_lines st;
     hook_usages := hook_usages st; api_calls := api_calls st;
     component_complexity := component_complexity st; files := files st;
     performance_issues := performance_issues st; react_native_issues := react_native_issues st;
     state_flows := state_flows st; database_schemas := database_schemas st;
     import_dependencies := import_dependencies st; complex_types := complex_types st;
     enhanced_api_endpoints := enhanced_api_endpoints st; style_patterns := style_patterns st;
     hook_usages_analysis := hook_usages_analysis st;
     enhanced_navigation := enhanced_navigation st; security_patterns := security_patterns st |}.

Definition set_api_endpoints (v : list endpoint) (st : index) : index :=
  {| component_props := component_props st; hooks := hooks st; services := services st;
     api_endpoints := v; interfaces := interfaces st; state_management := state_management st;
     navigation_routes := navigation_routes st; file_summaries := file_summaries st;
     total_lines := total_lines st; hook_usages := hook_usages st; api_calls := api_calls st;
     component_complexity := component_complexity st; files := files st;
     performance_issues := performance_issues st; react_native_issues := react_native_issues st;
     state_flows := state_flows st; database_schemas := database_schemas st;
     import_dependencies := import_dependencies st; complex_types := complex_types st;
     enhanced_api_endpoints := enhanced_api_endpoints st; style_patterns := style_patterns st;
     hook_usages_analysis := hook_usages_analysis st;
     enhanced_navigation := enhanced_navigation st; security_patterns := security_patterns st |}.

Definition set_interfaces (v : gmap string interface_entry) (st : index) : index :=
  {| component_props := component_props st; hooks := hooks st; services := services st;
     api_endpoints := api_endpoints st; interfaces := v; state_management := state_management st;
     navigation_routes := navigation_routes st; file_summaries := file_summaries st;
     total_lines := total_lines st; hook_usages := hook_usages st; api_calls := api_calls st;
     component_complexity := component_complexity st; files := files st;
     performance_issues := performance_issues st; react_native_issues := react_native_issues st;
     state_flows := state_flows st; database_schemas := database_schemas st;
     import_dependencies := import_dependencies st; complex_types := complex_types st;
     enhanced_api_endpoints := enhanced_api_endpoints st; style_patterns := style_patterns st;
     hook_usages_analysis := hook_usages_analysis st;
     enhanced_navigation := enhanced_navigation st; security_patterns := security_patterns st |}.

Definition set_state_management (v : list state_pattern) (st : index) : index :=
  {| component_props := component_props st; hooks := hooks st; services := services st;
     api_endpoints := api_endpoints st; interfaces := interfaces st; state_management := v;
     navigation_routes := navigation_routes st; file_summaries := file_summaries st;
     total_lines := total_lines st; hook_usages := hook_usages st; api_calls := api_calls st;
     component_complexity := component_complexity st; files := files st;
     performance_issues := performance_issues st; react_native_issues := react_native_issues st;
     state_flows := state_flows st; database_schemas := database_schemas st;
     import_dependencies := import_dependencies st; complex_types := complex_types st;
     enhanced_api_endpoints := enhanced_api_endpoints st; style_patterns := style_patterns st;
     hook_usages_analysis := hook_usages_analysis st;
     enhanced_navigation := enhanced_navigation st; security_patterns := security_patterns st |}.

Definition set_navigation_routes (v : list route) (st : index) : index :=
  {| component_props := component_props st; hooks := hooks st; services := services st;
     api_endpoints := api_endpoints st; interfaces := interfaces st;
     state_management := state_management st; navigation_routes := v;
     file_summaries := file_summaries st; total_lines := total_lines st;
     hook_usages := hook_usages st; api_calls := api_calls st;
     component_complexity := component_complexity st; files := files st;
     performance_issues := performance_issues st; react_native_issues := react_native_issues st;
     state_flows := state_flows st; database_schemas := database_schemas st;
     import_dependencies := import_dependencies st; complex_types := complex_types st;
     enhanced_api_endpoints := enhanced_api_endpoints st; style_patterns := style_patterns st;
     hook_usages_analysis := hook_usages_analysis st;
     enhanced_navigation := enhanced_navigation st; security_patterns := security_patterns st |}.

Definition set_file_summaries (v : list file_summary) (st : index) : index :=
  {| component_props := component_props st; hooks := hooks st; services := services st;
     api_endpoints := api_endpoints st; interfaces := interfaces st;
     state_management := state_management st; navigation_routes := navigation_routes st;
     file_summaries := v; total_lines := total_lines st; hook_usages := hook_usages st;
     api_calls := api_calls st; component_complexity := component_complexity st; files := files st;
     performance_issues := performance_issues st; react_native_issues := react_native_issues st;
     state_flows := state_flows st; database_schemas := database_schemas st;
     import_dependencies := import_dependencies st; complex_types := complex_types st;
     enhanced_api_endpoints := enhanced_api_endpoints st; style_patterns := style_patterns st;
     hook_usages_analysis := hook_usages_analysis st;
     enhanced_navigation := enhanced_navigation st; security_patterns := security_patterns st |}.

Definition set_total_lines (v : Z) (st : index) : index :=
  {| component_props := component_props st; hooks := hooks st; services := services st;
     api_endpoints := api_endpoints st; interfaces := interfaces st;
     state_management := state_management st; navigation_routes := navigation_routes st;
     file_summaries := file_summaries st; total_lines := v; hook_usages := hook_usages st;
     api_calls := api_calls st; component_complexity := component_complexity st; files := files st;
     performance_issues := performance_issues st; react_native_issues := react_native_issues st;
     state_flows := state_flows st; database_schemas := database_schemas st;
     import_dependencies := import_dependencies st; complex_types := complex_types st;
     enhanced_api_endpoints := enhanced_api_endpoints st; style_patterns := style_patterns st;
     hook_usages_analysis := hook_usages_analysis st;
     enhanced_navigation := enhanced_navigation st; security_patterns := security_patterns st |}.

Definition set_hook_usages (v : gmap string (gset string)) (st : index) : index :=
  {| component_props := component_props st; hooks := hooks st; services := services st;
     api_endpoints := api_endpoints st; interfaces := interfaces st;
     state_management := state_management st; navigation_routes := navigation_routes st;
     file_summaries := file_summaries st; total_lines := total_lines st; hook_usages := v;
     api_calls := api_calls st; component_complexity := component_complexity st; files := files st;
     performance_issues := performance_issues st; react_native_issues := react_native_issues st;
     state_flows := state_flows st; database_schemas := database_schemas st;
     import_dependencies := import_dependencies st; complex_types := complex_types st;
     enhanced_api_endpoints := enhanced_api_endpoints st; style_patterns := style_patterns st;
     hook_usages_analysis := hook_usages_analysis st;
     enhanced_navigation := enhanced_navigation st; security_patterns := security_patterns st |}.

Definition set_api_calls (v : gmap string (gset string)) (st : index) : index :=
  {| component_props := component_props st; hooks := hooks st; services := services st;
     api_endpoints := api_endpoints st; interfaces := interfaces st;
     state_management := state_management st; navigation_routes := navigation_routes st;
     file_summaries := file_summaries st; total_lines := total_lines st;
     hook_usages := hook_usages st; api_calls := v;
     component_complexity := component_complexity st; files := files st;
     performance_issues := performance_issues st; react_native_issues := react_native_issues st;
     state_flows := state_flows st; database_schemas := database_schemas st;
     import_dependencies := import_dependencies st; complex_types := complex_types st;
     enhanced_api_endpoints := enhanced_api_endpoints st; style_patterns := style_patterns st;
     hook_usages_analysis := hook_usages_analysis st;
     enhanced_navigation := enhanced_navigation st; security_patterns := security_patterns st |}.

Definition set_component_complexity (v : list complexity_entry) (st : index) : index :=
  {| component_props := component_props st; hooks := hooks st; services := services st;
     api_endpoints := api_endpoints st; interfaces := interfaces st;
     state_management := state_management st; navigation_routes := navigation_routes st;
     file_summaries := file_summaries st; total_lines := total_lines st;
     hook_usages := hook_usages st; api_calls := api_calls st; component_complexity := v;
     files := files st; performance_issues := performance_issues st;
     react_native_issues := react_native_issues st; state_flows := state_flows st;
     database_schemas := database_schemas st; import_dependencies := import_dependencies st;
     complex_types := complex_types st; enhanced_api_endpoints := enhanced_api_endpoints st;
     style_patterns := style_patterns st; hook_usages_analysis := hook_usages_analysis st;
     enhanced_navigation := enhanced_navigation st; security_patterns := security_patterns st |}.

Definition set_files (v : list (string * string)) (st : index) : index :=
  {| component_props := component_props st; hooks := hooks st; services := services st;
     api_endpoints := api_endpoints st; interfaces := interfaces st;
     state_management := state_management st; navigation_routes := navigation_routes st;
     file_summaries := file_summaries st; total_lines := total_lines st;
     hook_usages := hook_usages st; api_calls := api_calls st;
     component_complexity := component_complexity st; files := v;
     performance_issues := performance_issues st; react_native_issues := react_native_issues st;
     state_flows := state_flows st; database_schemas := database_schemas st;
     import_dependencies := import_dependencies st; complex_types := complex_types st;
     enhanced_api_endpoints := enhanced_api_endpoints st; style_patterns := style_patterns st;
     hook_usages_analysis := hook_usages_analysis st;
     enhanced_navigation := enhanced_navigation st; security_patterns := security_patterns st |}.

Definition set_performance_issues (v : list issue_entry) (st : index) : index :=
  {| component_props := component_props st; hooks := hooks st; services := services st;
     api_endpoints := api_endpoints st; interfaces := interfaces st;
     state_management := state_management st; navigation_routes := navigation_routes st;
     file_summaries := file_summaries st; total_lines := total_lines st;
     hook_usages := hook_usages st; api_calls := api_calls st;
     component_complexity := component_complexity st; files := files st; performance_issues := v;
     react_native_issues := react_native_issues st; state_flows := state_flows st;
     database_schemas := database_schemas st; import_dependencies := import_dependencies st;
     complex_types := complex_types st; enhanced_api_endpoints := enhanced_api_endpoints st;
     style_patterns := style_patterns st; hook_usages_analysis := hook_usages_analysis st;
     enhanced_navigation := enhanced_navigation st; security_patterns := security_patterns st |}.

Definition set_react_native_issues (v : list issue_entry) (st : index) : index :=
  {| component_props := component_props st; hooks := hooks st; services := services st;
     api_endpoints := api_endpoints st; interfaces := interfaces st;
     state_management := state_management st; navigation_routes := navigation_routes st;
     file_summaries := file_summaries st; total_lines := total_lines st;
     hook_usages := hook_usages st; api_calls := api_calls st;
     component_complexity := component_complexity st; files := files st;
     performance_issues := performance_issues st; react_native_issues := v;
     state_flows := state_flows st; database_schemas := database_schemas st;
     import_dependencies := import_dependencies st; complex_types := complex_types st;
     enhanced_api_endpoints := enhanced_api_endpoints st; style_patterns := style_patterns st;
     hook_usages_analysis := hook_usages_analysis st;
     enhanced_navigation := enhanced_navigation st; security_patterns := security_patterns st |}.

Definition set_state_flows (v : gmap string (list (string * list string))) (st : index) : index :=
  {| component_props := component_props st; hooks := hooks st; services := services st;
     api_endpoints := api_endpoints st; interfaces := interfaces st;
     state_management := state_management st; navigation_routes := navigation_routes st;
     file_summaries := file_summaries st; total_lines := total_lines st;
     hook_usages := hook_usages st; api_calls := api_calls st;
     component_complexity := component_complexity st; files := files st;
     performance_issues := performance_issues st; react_native_issues := react_native_issues st;
     state_flows := v; database_schemas := database_schemas st;
     import_dependencies := import_dependencies st; complex_types := complex_types st;
     enhanced_api_endpoints := enhanced_api_endpoints st; style_patterns := style_patterns st;
     hook_usages_analysis := hook_usages_analysis st;
     enhanced_navigation := enhanced_navigation st; security_patterns := security_patterns st |}.

Definition set_database_schemas (v : list schema) (st : index) : index :=
  {| component_props := component_props st; hooks := hooks st; services := services st;
     api_endpoints := api_endpoints st; interfaces := interfaces st;
     state_management := state_management st; navigation_routes := navigation_routes st;
     file_summaries := file_summaries st; total_lines := total_lines st;
     hook_usages := hook_usages st; api_calls := api_calls st;
     component_complexity := component_complexity st; files := files st;
     performance_issues := performance_issues st; react_native_issues := react_native_issues st;
     state_flows := state_flows st; database_schemas := v;
     import_dependencies := import_dependencies st; complex_types := complex_types st;
     enhanced_api_endpoints := enhanced_api_endpoints st; style_patterns := style_patterns st;
     hook_usages_analysis := hook_usages_analysis st;
     enhanced_navigation := enhanced_navigation st; security_patterns := security_patterns st |}.

Definition set_import_dependencies (v : list dependency) (st : index) : index :=
  {| component_props := component_props st; hooks := hooks st; services := services st;
     api_endpoints := api_endpoints st; interfaces := interfaces st;
     state_management := state_management st; navigation_routes := navigation_routes st;
     file_summaries := file_summaries st; total_lines := total_lines st;
     hook_usages := hook_usages st; api_calls := api_calls st;
     component_complexity := component_complexity st; files := files st;
     performance_issues := performance_issues st; react_native_issues := react_native_issues st;
     state_flows := state_flows st; database_schemas := database_schemas st;
     import_dependencies := v; complex_types := complex_types st;
     enhanced_api_endpoints := enhanced_api_endpoints st; style_patterns := style_patterns st;
     hook_usages_analysis := hook_usages_analysis st;
     enhanced_navigation := enhanced_navigation st; security_patterns := security_patterns st |}.

Definition set_complex_types (v : list complex_type) (st : index) : index :=
  {| component_props := component_props st; hooks := hooks st; services := services st;
     api_endpoints := api_endpoints st; interfaces := interfaces st;
     state_management := state_management st; navigation_routes := navigation_routes st;
     file_summaries := file_summaries st; total_lines := total_lines st;
     hook_usages := hook_usages st; api_calls := api_calls st;
     component_complexity := component_complexity st; files := files st;
     performance_issues := performance_issues st; react_native_issues := react_native_issues st;
     state_flows := state_flows st; database_schemas := database_schemas st;
     import_dependencies := import_dependencies st; complex_types := v;
     enhanced_api_endpoints := enhanced_api_endpoints st; style_patterns := style_patterns st;
     hook_usages_analysis := hook_usages_analysis st;
     enhanced_navigation := enhanced_navigation st; security_patterns := security_patterns st |}.

Definition set_enhanced_api_endpoints (v : list enhanced_endpoint) (st : index) : index :=
  {| component_props := component_props st; hooks := hooks st; services := services st;
     api_endpoints := api_endpoints st; interfaces := interfaces st;
     state_management := state_management st; navigation_routes := navigation_routes st;
     file_summaries := file_summaries st; total_lines := total_lines st;
     hook_usages := hook_usages st; api_calls := api_calls st;
     component_complexity := component_complexity st; files := files st;
     performance_issues := performance_issues st; react_native_issues := react_native_issues st;
     state_flows := state_flows st; database_schemas := database_schemas st;
     import_dependencies := import_dependencies st; complex_types := complex_types st;
     enhanced_api_endpoints := v; style_patterns := style_patterns st;
     hook_usages_analysis := hook_usages_analysis st;
     enhanced_navigation := enhanced_navigation st; security_patterns := security_patterns st |}.

Definition set_style_patterns (v : list style_definition) (st : index) : index :=
  {| component_props := component_props st; hooks := hooks st; services := services st;
     api_endpoints := api_endpoints st; interfaces := interfaces st;
     state_management := state_management st; navigation_routes := navigation_routes st;
     file_summaries := file_summaries st; total_lines := total_lines st;
     hook_usages := hook_usages st; api_calls := api_calls st;
     component_complexity := component_complexity st; files := files st;
     performance_issues := performance_issues st; react_native_issues := react_native_issues st;
     state_flows := state_flows st; database_schemas := database_schemas st;
     import_dependencies := import_dependencies st; complex_types := complex_types st;
     enhanced_api_endpoints := enhanced_api_endpoints st; style_patterns := v;
     hook_usages_analysis := hook_usages_analysis st;
     enhanced_navigation := enhanced_navigation st; security_patterns := security_patterns st |}.

Definition set_hook_usages_analysis (v : list hook_definition) (st : index) : index :=
  {| component_props := component_props st; hooks := hooks st; services := services st;
     api_endpoints := api_endpoints st; interfaces := interfaces st;
     state_management := state_management st; navigation_routes := navigation_routes st;
     file_summaries := file_summaries st; total_lines := total_lines st;
     hook_usages := hook_usages st; api_calls := api_calls st;
     component_complexity := component_complexity st; files := files st;
     performance_issues := performance_issues st; react_native_issues := react_native_issues st;
     state_flows := state_flows st; database_schemas := database_schemas st;
     import_dependencies := import_dependencies st; complex_types := complex_types st;
     enhanced_api_endpoints := enhanced_api_endpoints st; style_patterns := style_patterns st;
     hook_usages_analysis := v; enhanced_navigation := enhanced_navigation st;
     security_patterns := security_patterns st |}.

Definition set_enhanced_navigation (v : list nav_route) (st : index) : index :=
  {| component_props := component_props st; hooks := hooks st; services := services st;
     api_endpoints := api_endpoints st; interfaces := interfaces st;
     state_management := state_management st; navigation_routes := navigation_routes st;
     file_summaries := file_summaries st; total_lines := total_lines st;
     hook_usages := hook_usages st; api_calls := api_calls st;
     component_complexity := component_complexity st; files := files st;
     performance_issues := performance_issues st; react_native_issues := react_native_issues st;
     state_flows := state_flows st; database_schemas := database_schemas st;
     import_dependencies := import_dependencies st; complex_types := complex_types st;
     enhanced_api_endpoints := enhanced_api_endpoints st; style_patterns := style_patterns st;
     hook_usages_analysis := hook_usages_analysis st; enhanced_navigation := v;
     security_patterns := security_patterns st |}.

Definition set_security_patterns (v : list security_concern) (st : index) : index :=
  {| component_props := component_props st; hooks := hooks st; services := services st;
     api_endpoints := api_endpoints st; interfaces := interfaces st;
     state_management := state_management st; navigation_routes := navigation_routes st;
     file_summaries := file_summaries st; total_lines := total_lines st;
     hook_usages := hook_usages st; api_calls := api_calls st;
     component_complexity := component_complexity st; files := files st;
     performance_issues := performance_issues st; react_native_issues := react_native_issues st;
     state_flows := state_flows st; database_schemas := database_schemas st;
     import_dependencies := import_dependencies st; complex_types := complex_types st;
     enhanced_api_endpoints := enhanced_api_endpoints st; style_patterns := style_patterns st;
     hook_usages_analysis := hook_usages_analysis st;
     enhanced_navigation := enhanced_navigation st; security_patterns := v |}.

(** The options of the run that the modelled code reads. *)
Record config : Type := {
  max_lines : Z;
  analyze_performance : bool;
  analyze_data_flow : bool;
  show_component_tree : bool;
  analyze_react_native : bool
}.

(** [DEFAULT_CONFIG] *)
Definition DEFAULT_CONFIG : config := {|
  max_lines := 15000;
  analyze_performance := false;
  analyze_data_flow := false;
  show_component_tree := false;
  analyze_react_native := false
|}.

(** [d[key].add(x)] on a [defaultdict(set)]. *)
Definition add_to (key x : string) (d : gmap string (gset string))
    : gmap string (gset string) :=
  <[key := default ∅ (d !! key) ∪ {[x]}]> d.

(** ** UI components: [extract_react_component] *)

Definition upper_cls : cls := OneOf [Range "A" "Z"].                       (* [A-Z] *)
Definition alnum_cls : cls := OneOf [Range "a" "z"; Range "A" "Z"; Range "0" "9"].
Definition ident_cls : cls :=                                 (* [a-zA-Z0-9_] *)
  OneOf [Range "a" "z"; Range "A" "Z"; Range "0" "9"; Ch "_"].

(** The tail shared by the component and the hook declaration patterns:
    \s*(?:<.*?>)?\s*(?:=\s*(?:\([^)]*\)|[^=]* )\s*=>|[({]) *)
Definition declaration_tail : re :=
  seq [ws0; opt (seq [lit "<"; lazy_star Any; lit ">"]); ws0;
       Alt (seq [lit "="; ws0;
                 Alt (seq [lit "("; star (NoneOf [Ch ")"]); lit ")"])
                     (star (NoneOf [Ch "="]));
                 ws0; lit "=>"])
           (One (OneOf [Ch "("; Ch "{"]))].

(** (?:export\s+)?(?:const|function)\s+([A-Z][a-zA-Z0-9_]* ) followed by the
    declaration tail *)
Definition func_component_pattern : re :=
  seq [opt (seq [lit "export"; ws1]); alts [lit "const"; lit "function"]; ws1;
       Group 1 (seq [One upper_cls; star ident_cls]); declaration_tail].

(** \(\s*(?:{\s*([^}]* )\s*}|\s*props\s*|\s*([^)]* )\s* ) *)
Definition props_pattern : re :=
  seq [lit "("; ws0;
       alts [seq [lit "{"; ws0; Group 1 (star (NoneOf [Ch "}"])); ws0; lit "}"];
             seq [ws0; lit "props"; ws0];
             seq [ws0; Group 2 (star (NoneOf [Ch ")"])); ws0]]].

(** (\w+)(?::\s*([^,\s]+))? *)
Definition prop_name_pattern : re :=
  seq [Group 1 (plus w);
       opt (seq [lit ":"; ws0; Group 2 (plus (NoneOf [Ch ","; Space]))])].

(** use[A-Z][a-zA-Z0-9]* *)
Definition hook_usage_pattern : re :=
  seq [lit "use"; One upper_cls; star alnum_cls].

Definition http_verbs : re :=
  alts [lit "get"; lit "post"; lit "put"; lit "delete"; lit "patch"].

(** The four patterns of [api_patterns]:
    ([a-zA-Z0-9_]+)\.(?:get|post|put|delete|patch)\(   fetch\(
    axios\.(?:get|post|put|delete|patch)\(              api\.(?:[a-zA-Z0-9_]+)\( *)
Definition api_patterns : list re :=
  [seq [Group 1 (plus ident_cls); lit "."; http_verbs; lit "("];
   lit "fetch(";
   seq [lit "axios."; http_verbs; lit "("];
   seq [lit "api."; plus ident_cls; lit "("]].

(** class\s+([A-Z][a-zA-Z0-9_]* )\s+extends\s+(?:React\.)?Component *)
Definition class_component_pattern : re :=
  seq [lit "class"; ws1; Group 1 (seq [One upper_cls; star ident_cls]); ws1;
       lit "extends"; ws1; opt (lit "React."); lit "Component"].

(** [[{'name': m.group(1), 'type': m.group(2) if m.group(2) else 'any'} ...]] *)
Definition parse_params (text : string) : list param :=
  map (fun m => {| p_name := group_str m 1;
                   p_type := if Py.otruthy (group m 2) then group_str m 2 else "any" |})
      (finditer no_flags prop_name_pattern text).

(** The matched texts of all the API patterns, pattern by pattern. *)
Definition find_api_calls (text : string) : list string :=
  concat (map (fun pattern => map m_text (finditer no_flags pattern text)) api_patterns).

(** *** The optional analyses *)

(** useEffect\(\s*\(\)\s*=>\s*{[^}]+}\s*\) *)
Definition effect_missing_deps_pattern : re :=
  seq [lit "useEffect("; ws0; lit "()"; ws0; lit "=>"; ws0; lit "{";
       plus (NoneOf [Ch "}"]); lit "}"; ws0; lit ")"].

(** <\w+\s+\w+={(?:\(\)\s*=>|function\s*\([^)]*\)\s*{)[^}]+} *)
Definition inline_function_pattern : re :=
  seq [lit "<"; plus w; ws1; plus w; lit "={";
       Alt (seq [lit "()"; ws0; lit "=>"])
           (seq [lit "function"; ws0; lit "("; star (NoneOf [Ch ")"]); lit ")"; ws0; lit "{"]);
       plus (NoneOf [Ch "}"]); lit "}"].

(** [re.escape] leaves a component name unchanged: it is made of letters,
    digits and underscores. *)
(** memo\(\s*NAME   React\.memo\(\s*NAME   const\s+NAME\s*=\s*\(\s*{\s*[^}]+}\s*\) *)
Definition memo_pattern (name : string) : re := seq [lit "memo("; ws0; lit name].
Definition react_memo_pattern (name : string) : re :=
  seq [lit "React.memo("; ws0; lit name].
Definition props_component_pattern (name : string) : re :=
  seq [lit "const"; ws1; lit name; ws0; lit "="; ws0; lit "("; ws0; lit "{"; ws0;
       plus (NoneOf [Ch "}"]); lit "}"; ws0; lit ")"].

Definition analyze_performance_issues (content component_name : string) : list string :=
  let effect_missing_deps := finditer no_flags effect_missing_deps_pattern content in
  let inline_functions := finditer no_flags inline_function_pattern content in
  (if bool_decide (effect_missing_deps = []) then []
   else ["Component '" +:+ component_name +:+ "' has useEffect without dependency array"])
  ++ (if bool_decide (inline_functions = []) then []
      else ["Component '" +:+ component_name +:+ "' has "
            +:+ Py.str_nat (length inline_functions) +:+ " inline functions in JSX"])
  ++ (if negb (bool_decide (is_Some (search no_flags (memo_pattern component_name) content)))
         && negb (bool_decide (is_Some (search no_flags (react_memo_pattern component_name) content)))
      then
        if bool_decide (is_Some (search no_flags (props_component_pattern component_name) content))
        then ["Component '" +:+ component_name +:+ "' could benefit from memoization"]
        else []
      else []).

(** style={{\s*[^}]+}} *)
Definition inline_style_pattern : re :=
  seq [lit "style={{"; ws0; plus (NoneOf [Ch "}"]); lit "}}"].

Definition analyze_react_native_patterns (content component_name : string)
    : list string :=
  let inline_styles := finditer no_flags inline_style_pattern content in
  (if bool_decide (inline_styles = []) then []
   else ["Component '" +:+ component_name +:+ "' has "
         +:+ Py.str_nat (length inline_styles)
         +:+ " inline styles that should use StyleSheet"])
  ++ (if negb (Py.contains "Platform.OS" content)
         && (Py.contains "SafeAreaView" content || Py.contains "StatusBar" content)
      then ["Component '" +:+ component_name +:+ "' might need platform-specific handling"]
      else [])
  ++ (if Py.contains "Image" content && Py.contains "source" content
         && negb (Py.contains "resizeMode" content)
      then ["Component '" +:+ component_name +:+ "' has Image without resizeMode specified"]
      else [])
  ++ (if Py.contains "useEffect" content && Py.contains "navigation" content
         && (Py.contains "addEventListener" content || Py.contains "addListener" content)
         && negb (Py.contains "return" content)
      then ["Component '" +:+ component_name
            +:+ "' might have memory leaks from navigation event listeners"]
      else []).

(** const\s+\[\s*(\w+)\s*,\s*set(\w+)\s*\]\s*=\s*useState *)
Definition use_state_pattern : re :=
  seq [lit "const"; ws1; lit "["; ws0; Group 1 (plus w); ws0; lit ","; ws0;
       lit "set"; Group 2 (plus w); ws0; lit "]"; ws0; lit "="; ws0; lit "useState"].

(** <(\w+)[^>]*\bNAME={[^}]*} *)
Definition prop_pass_pattern (state_name : string) : re :=
  seq [lit "<"; Group 1 (plus w); star (NoneOf [Ch ">"]); WordB; lit state_name;
       lit "={"; star (NoneOf [Ch "}"]); lit "}"].

(** [d[key].append(x)] on a dictionary of lists kept in insertion order. *)
Fixpoint assoc_append (key x : string) (d : list (string * list string))
    : list (string * list string) :=
  match d with
  | [] => [(key, [x])]
  | (k, l) :: d' =>
      if String.eqb k key then (k, l ++ [x]) :: d'
      else (k, l) :: assoc_append key x d'
  end.

(** [track_state_flow(content, component_name)[component_name]]: for every
    state of a [useState], the elements it is passed to.  The empty list
    stands for the empty dictionary the function returns when nothing is
    found. *)
Definition track_state_flow (content component_name : string)
    : list (string * list string) :=
  foldl (fun flows m =>
           let state_name := group_str m 1 in
           foldl (fun flows prop_match =>
                    assoc_append (group_str prop_match 1) state_name flows)
                 flows (finditer no_flags (prop_pass_pattern state_name) content))
        [] (finditer no_flags use_state_pattern content).

(** *** The recognizer *)

(** Recording the issues of one component in a global issue list. *)
Definition record_issues (name file_path : string) (issues : list string)
    (l : list issue_entry) : list issue_entry :=
  if bool_decide (issues = []) then l
  else l ++ [{| is_component := name; is_file_path := file_path; is_issues := issues |}].

(** Tracking a component whose complexity exceeds 10. *)
Definition track_complexity (name file_path : string) (complexity : nat)
    (l : list complexity_entry) : list complexity_entry :=
  if 10 <? complexity
  then l ++ [{| cx_name := name; cx_file_path := file_path; cx_complexity := complexity |}]
  else l.

(** [content.count('if (') + content.count('? ')] *)
Definition conditional_markers (content : string) : nat :=
  Py.count "if (" content + Py.count "? " content.

(** [content.count('this.state') + content.count('this.setState')] *)
Definition class_state_uses (content : string) : nat :=
  Py.count "this.state" content + Py.count "this.setState" content.

(** The body of the loop over the functional-component matches; [None] for a
    match that is skipped. *)
Definition functional_component (cfg : config) (content file_path : string)
    (m : mres) (st : index) : option component * index :=
  let component_name := group_str m 1 in
  if Py.endswith "Provider" component_name || Py.endswith "Context" component_name
  then (None, st)
  else
    let start_pos := m_start m in
    let jsx_start :=
      match Py.find "return (" content start_pos with
      | Some i => Some i
      | None => Py.find "return {" content start_pos
      end in
    let props :=
      match search no_flags props_pattern (Py.slice start_pos (start_pos + 500) content) with
      | Some props_match =>
          parse_params
            (default EmptyString
               (Py.oor (Py.oor (group props_match 1) (group props_match 2))
                       (Some EmptyString)))
      | None => []
      end in
    let hook_usages_ :=
      map m_text
          (finditer no_flags hook_usage_pattern
             (match jsx_start with Some j => Py.take j content | None => content end)) in
    let st := set_hook_usages
                (foldl (fun d h => add_to component_name h d) (hook_usages st) hook_usages_)
                st in
    let api_calls_ := find_api_calls content in
    let st := set_api_calls
                (foldl (fun d a => add_to component_name a d) (api_calls st) api_calls_)
                st in
    let complexity :=
      length hook_usages_ + length api_calls_ + conditional_markers content in
    let performance :=
      if analyze_performance cfg then analyze_performance_issues content component_name
      else [] in
    let st := set_performance_issues
                (record_issues component_name file_path performance (performance_issues st))
                st in
    let rn :=
      if analyze_react_native cfg then analyze_react_native_patterns content component_name
      else [] in
    let st := set_react_native_issues
                (record_issues component_name file_path rn (react_native_issues st)) st in
    let flows :=
      if analyze_data_flow cfg then track_state_flow content component_name else [] in
    let st := if bool_decide (flows = []) then st
              else set_state_flows (<[component_name := flows]> (state_flows st)) st in
    let st := set_component_complexity
                (track_complexity component_name file_path complexity (component_complexity st))
                st in
    let st := set_component_props (<[component_name := props]> (component_props st)) st in
    (Some {| c_name := component_name;
             c_type := "functional";
             c_file_path := file_path;
             c_props := props;
             c_hooks_used := hook_usages_;
             c_api_calls := api_calls_;
             c_complexity := complexity;
             c_performance_issues := performance;
             c_react_native_issues := rn;
             c_state_flows := flows |}, st).

(** The body of the loop over the class-component matches. *)
Definition class_component (cfg : config) (content file_path : string)
    (m : mres) (st : index) : component * index :=
  let component_name := group_str m 1 in
  let api_calls_ := find_api_calls content in
  let st := set_api_calls
              (foldl (fun d a => add_to component_name a d) (api_calls st) api_calls_)
              st in
  let complexity :=
    length api_calls_ + conditional_markers content + class_state_uses content in
  let performance :=
    if analyze_performance cfg then analyze_performance_issues content component_name
    else [] in
  let st := set_performance_issues
              (record_issues component_name file_path performance (performance_issues st))
              st in
  let rn :=
    if analyze_react_native cfg then analyze_react_native_patterns content component_name
    else [] in
  let st := set_react_native_issues
              (record_issues component_name file_path rn (react_native_issues st)) st in
  let st := set_component_complexity
              (track_complexity component_name file_path complexity (component_complexity st))
              st in
  ({| c_name := component_name;
      c_type := "class";
      c_file_path := file_path;
      c_props := [];
      c_hooks_used := [];
      c_api_calls := api_calls_;
      c_complexity := complexity;
      c_performance_issues := performance;
      c_react_native_issues := rn;
      c_state_flows := [] |}, st).

Fixpoint functional_components (cfg : config) (content file_path : string)
    (ms : list mres) (st : index) : list component * index :=
  match ms with
  | [] => ([], st)
  | m :: rest =>
      let '(c, st) := functional_component cfg content file_path m st in
      let '(cs, st) := functional_components cfg content file_path rest st in
      (match c with Some c => c :: cs | None => cs end, st)
  end.

Fixpoint class_components (cfg : config) (content file_path : string)
    (ms : list mres) (st : index) : list component * index :=
  match ms with
  | [] => ([], st)
  | m :: rest =>
      let '(c, st) := class_component cfg content file_path m st in
      let '(cs, st) := class_components cfg content file_path rest st in
      (c :: cs, st)
  end.

(** [extract_react_component(content, file_path)]: the components found, and
    the index after the call. *)
Definition extract_react_component (cfg : config) (content file_path : string)
    (st : index) : list component * index :=
  let '(funcs, st) :=
    functional_components cfg content file_path
      (finditer no_flags func_component_pattern content) st in
  let '(classes, st) :=
    class_components cfg content file_path
      (finditer no_flags class_component_pattern content) st in
  (funcs ++ classes, st).

(** ** Reusable state units: [extract_hooks] *)

(** (?:export\s+)?(?:const|function)\s+(use[A-Z][a-zA-Z0-9_]* ) followed by
    the declaration tail *)
Definition hook_pattern : re :=
  seq [opt (seq [lit "export"; ws1]); alts [lit "const"; lit "function"]; ws1;
       Group 1 (seq [lit "use"; One upper_cls; star ident_cls]); declaration_tail].

(** \(\s*([^)]* )\s*\) *)
Definition params_pattern : re :=
  seq [lit "("; ws0; Group 1 (star (NoneOf [Ch ")"])); ws0; lit ")"].

(** const\s+\[\s*(\w+)\s*,\s*set(\w+)\s*\]\s*=\s*useState[<(] *)
Definition state_hook_pattern : re :=
  seq [use_state_pattern; One (OneOf [Ch "<"; Ch "("])].

(** (use[A-Z][a-zA-Z0-9]* ) *)
Definition used_hook_pattern : re := Group 1 hook_usage_pattern.

Definition hook_of_match (content file_path : string) (m : mres) : hook :=
  let hook_name := group_str m 1 in
  let start_pos := m_start m in
  let body := Py.drop start_pos content in
  let params :=
    match search no_flags params_pattern (Py.slice start_pos (start_pos + 200) content) with
    | Some params_match => parse_params (group_str params_match 1)
    | None => []
    end in
  let return_values :=
    map (fun state_match =>
           "[" +:+ group_str state_match 1 +:+ ", " +:+ ("set" +:+ group_str state_match 2)
           +:+ "]")
        (finditer no_flags state_hook_pattern body) in
  let hook_usages_ :=
    filter (fun h => h ≠ hook_name)
           (map (fun hm => group_str hm 1) (finditer no_flags used_hook_pattern body)) in
  {| h_name := hook_name;
     h_file_path := file_path;
     h_params := params;
     h_returns := return_values;
     h_uses_hooks := hook_usages_;
     h_api_calls := find_api_calls body |}.

(** [extract_hooks(content, file_path)]: every hook found is returned and
    appended to [self.hooks]. *)
Definition extract_hooks (content file_path : string) (st : index)
    : list hook * index :=
  let found := map (hook_of_match content file_path)
                   (finditer no_flags hook_pattern content) in
  (found, set_hooks (hooks st ++ found) st).

(** ** Service classes: [extract_services] *)

(** (?:export\s+)?class\s+(\w+)(?:\s+extends\s+(\w+))? *)
Definition class_pattern : re :=
  seq [opt (seq [lit "export"; ws1]); lit "class"; ws1; Group 1 (plus w);
       opt (seq [ws1; lit "extends"; ws1; Group 2 (plus w)])].

(** (?:async\s+)?(\w+)\s*\(([^)]* )\)\s*(?::\s*([^{]+))?\s*{ *)
Definition method_pattern : re :=
  seq [opt (seq [lit "async"; ws1]); Group 1 (plus w); ws0; lit "(";
       Group 2 (star (NoneOf [Ch ")"])); lit ")"; ws0;
       opt (seq [lit ":"; ws0; Group 3 (plus (NoneOf [Ch "{"]))]); ws0; lit "{"].

(** (\w+)(?::\s*([^,]+))? *)
Definition method_param_pattern : re :=
  seq [Group 1 (plus w); opt (seq [lit ":"; ws0; Group 2 (plus (NoneOf [Ch ","]))])].

Definition any_quote : cls := OneOf [Ch squote; Ch dquote; Ch bquote].      (* ['DQ`] *)
Definition no_quote : cls := NoneOf [Ch squote; Ch dquote; Ch bquote].      (* [^'DQ`] *)

(** (?:fetch|axios)\s*\(\s*['DQ`]([^'DQ`]+)['DQ`]   and
    (?:get|post|put|delete|patch)\s*\(\s*['DQ`]([^'DQ`]+)['DQ`] *)
Definition service_endpoint_patterns : list re :=
  [seq [alts [lit "fetch"; lit "axios"]; ws0; lit "("; ws0; One any_quote;
        Group 1 (plus no_quote); One any_quote];
   seq [http_verbs; ws0; lit "("; ws0; One any_quote;
        Group 1 (plus no_quote); One any_quote]].

(** The methods of a class, [constructor] and [render] apart. *)
Definition methods_of (body : string) : list method :=
  omap (fun method_match =>
          let method_name := group_str method_match 1 in
          if bool_decide (method_name ∈ ["constructor"; "render"]) then None
          else
            let params_str := group_str method_match 2 in
            Some {| mt_name := method_name;
                    mt_params :=
                      if Py.truthy params_str then
                        map (fun m =>
                               {| p_name := group_str m 1;
                                  p_type := if Py.otruthy (group m 2)
                                            then Py.strip (group_str m 2) else "any" |})
                            (finditer no_flags method_param_pattern params_str)
                      else [];
                    mt_return_type :=
                      if Py.otruthy (group method_match 3)
                      then Some (Py.strip (group_str method_match 3)) else None |})
       (finditer no_flags method_pattern body).

Definition service_of_match (content file_path : string) (m : mres) : service :=
  let body := Py.drop (m_start m) content in
  {| s_name := group_str m 1;
     s_file_path := file_path;
     s_parent_class := if Py.otruthy (group m 2) then group m 2 else None;
     s_is_singleton :=
       Py.contains "getInstance" content && Py.contains "private constructor" content;
     s_methods := methods_of body;
     s_api_endpoints :=
       concat (map (fun pattern =>
                      map (fun em => group_str em 1) (finditer no_flags pattern body))
                   service_endpoint_patterns) |}.

(** The entries a service adds to the global endpoint list. *)
Definition endpoints_of (s : service) : list endpoint :=
  map (fun e => {| e_endpoint := e; e_service := s_name s; e_file_path := s_file_path s |})
      (s_api_endpoints s).

(** The loop over the class matches: each service is appended to
    [self.services], then its endpoints to [self.api_endpoints]. *)
Fixpoint record_services (found : list service) (st : index) : index :=
  match found with
  | [] => st
  | s :: rest =>
      let st := set_services (services st ++ [s]) st in
      let st := set_api_endpoints (api_endpoints st ++ endpoints_of s) st in
      record_services rest st
  end.

(** [extract_services(content, file_path)] *)
Definition extract_services (content file_path : string) (st : index)
    : list service * index :=
  let file_name := Py.basename file_path in
  let is_service := Py.contains "Service" file_name || Py.contains "/services/" file_path in
  if negb is_service then ([], st)
  else
    let found := map (service_of_match content file_path)
                     (finditer no_flags class_pattern content) in
    (found, record_services found st).

(** ** Type declarations: [extract_types] *)

(** <[^>]*> *)
Definition generics : re := seq [lit "<"; star (NoneOf [Ch ">"]); lit ">"].

(** (?:export\s+)?interface\s+(\w+)(?:<[^>]*>)?\s*(?:extends\s+(\w+)(?:<[^>]*>)?)?\s*{ *)
Definition interface_pattern : re :=
  seq [opt (seq [lit "export"; ws1]); lit "interface"; ws1; Group 1 (plus w);
       opt generics; ws0;
       opt (seq [lit "extends"; ws1; Group 2 (plus w); opt generics]); ws0; lit "{"].

(** (\w+)\??\s*:\s*([^;]+); *)
Definition property_pattern : re :=
  seq [Group 1 (plus w); opt (lit "?"); ws0; lit ":"; ws0;
       Group 2 (plus (NoneOf [Ch ";"])); lit ";"].

(** (?:export\s+)?type\s+(\w+)(?:<[^>]*>)?\s*=\s*([^;]+); *)
Definition type_pattern : re :=
  seq [opt (seq [lit "export"; ws1]); lit "type"; ws1; Group 1 (plus w);
       opt generics; ws0; lit "="; ws0; Group 2 (plus (NoneOf [Ch ";"])); lit ";"].

(** (?:export\s+)?enum\s+(\w+)\s*{ *)
Definition enum_pattern : re :=
  seq [opt (seq [lit "export"; ws1]); lit "enum"; ws1; Group 1 (plus w); ws0; lit "{"].

(** (\w+)(?:\s*=\s*([^,]+))? *)
Definition value_pattern : re :=
  seq [Group 1 (plus w);
       opt (seq [ws0; lit "="; ws0; Group 2 (plus (NoneOf [Ch ","]))])].

(** The loop [while braces_count > 0 and end_pos < len(content)]; [rest] is
    [content[end_pos:]]. *)
Fixpoint close_brace (rest : string) (end_pos braces_count : nat) : nat :=
  match braces_count, rest with
  | O, _ => end_pos
  | _, EmptyString => end_pos
  | S b, String c rest' =>
      close_brace rest' (S end_pos)
        (if Ascii.eqb c "{" then S (S b) else if Ascii.eqb c "}" then b else S b)
  end.

(** [content[start_pos:end_pos]], from the start of the declaration to the
    brace that closes its body (or to the end of the text). *)
Definition braced_text (content : string) (start_pos : nat) : string :=
  let end_pos := match Py.find "{" content start_pos with
                 | Some i => i + 1
                 | None => 0
                 end in
  Py.slice start_pos (close_brace (Py.drop end_pos content) end_pos 1) content.

Definition interface_of_match (content file_path : string) (m : mres) : interface :=
  {| i_name := group_str m 1;
     i_file_path := file_path;
     i_parent := if Py.otruthy (group m 2) then group m 2 else None;
     i_properties :=
       map (fun prop_match =>
              {| p_name := group_str prop_match 1;
                 p_type := Py.strip (group_str prop_match 2) |})
           (finditer no_flags property_pattern (braced_text content (m_start m))) |}.

Definition type_of_match (file_path : string) (m : mres) : type_alias :=
  {| t_name := group_str m 1;
     t_file_path := file_path;
     t_definition := Py.strip (group_str m 2) |}.

Definition enum_of_match (content file_path : string) (m : mres) : enum :=
  {| en_name := group_str m 1;
     en_file_path := file_path;
     en_values :=
       omap (fun val_match =>
               let val_name := group_str val_match 1 in
               if bool_decide (val_name ∈ ["enum"; "export"]) then None
               else Some {| ev_name := val_name;
                            ev_value := if Py.otruthy (group val_match 2)
                                        then Some (Py.strip (group_str val_match 2))
                                        else None |})
            (finditer no_flags value_pattern (braced_text content (m_start m))) |}.

Definition entry_of (i : interface) : interface_entry :=
  {| ie_file_path := i_file_path i; ie_parent := i_parent i;
     ie_properties := i_properties i |}.

(** [self.interfaces[interface_name] = {...}] *)
Definition record_interface (i : interface) (d : gmap string interface_entry)
    : gmap string interface_entry :=
  <[i_name i := entry_of i]> d.

(** [extract_types(content, file_path)] *)
Definition extract_types (content file_path : string) (st : index)
    : types_info * index :=
  let found := map (interface_of_match content file_path)
                   (finditer no_flags interface_pattern content) in
  ({| ti_interfaces := found;
      ti_types := map (type_of_match file_path) (finditer no_flags type_pattern content);
      ti_enums := map (enum_of_match content file_path)
                      (finditer no_flags enum_pattern content) |},
   set_interfaces (foldl (fun d i => record_interface i d) (interfaces st) found) st).

(** ** Routing declarations: [extract_navigation] *)

(** <KIND\.Screen\s+name=['DQ]([^'DQ]+)['DQ](?:\s+component={([^}]+)})? *)
Definition screen_pattern (kind : string) : re :=
  seq [lit "<"; lit kind; lit ".Screen"; ws1; lit "name="; One quote_cls;
       Group 1 (plus not_quote_cls); One quote_cls;
       opt (seq [ws1; lit "component={"; Group 2 (plus (NoneOf [Ch "}"])); lit "}"])].

(** NAME\(\s*{\s*([^}]+)\s*}\s*\) *)
Definition navigator_pattern (name : string) : re :=
  seq [lit name; lit "("; ws0; lit "{"; ws0; Group 1 (plus (NoneOf [Ch "}"])); ws0;
       lit "}"; ws0; lit ")"].

Definition screen_patterns : list re :=
  [screen_pattern "Stack"; screen_pattern "Tab"; screen_pattern "Drawer";
   navigator_pattern "createStackNavigator";
   navigator_pattern "createBottomTabNavigator";
   navigator_pattern "createDrawerNavigator"].

(** ([A-Za-z0-9_]+)\s*:\s*([A-Za-z0-9_]+) *)
Definition route_entry_pattern : re :=
  seq [Group 1 (plus ident_cls); ws0; lit ":"; ws0; Group 2 (plus ident_cls)].

Definition routes_of_match (file_path : string) (m : mres) : list route :=
  if Py.otruthy (group m 1) then
    [{| r_name := group_str m 1;
        r_component := if Py.otruthy (group m 2) then group m 2 else None;
        r_file_path := file_path |}]
  else
    map (fun route_match =>
           {| r_name := group_str route_match 1;
              r_component := group route_match 2;
              r_file_path := file_path |})
        (finditer no_flags route_entry_pattern (group_str m 1)).

(** [extract_navigation(content, file_path)] *)
Definition extract_navigation (content file_path : string) (st : index)
    : list route * index :=
  if negb (Py.contains "navigation" (Py.lower file_path)
           || Py.contains "router" (Py.lower file_path))
  then ([], st)
  else
    let routes :=
      concat (map (fun pattern =>
                     concat (map (routes_of_match file_path)
                                 (finditer no_flags pattern content)))
                  screen_patterns) in
    (routes, set_navigation_routes (navigation_routes st ++ routes) st).

(** ** State management: [extract_state_management] *)

Definition export_opt : re := opt (seq [lit "export"; ws1]).   (* (?:export\s+)? *)

(** (?:export\s+)?(?:const|function)\s+(\w+)Reducer\s*= *)
Definition reducer_pattern : re :=
  seq [export_opt; alts [lit "const"; lit "function"]; ws1; Group 1 (plus w);
       lit "Reducer"; ws0; lit "="].

(** (?:export\s+)?const\s+(\w+)Slice\s*=\s*createSlice\( *)
Definition slice_pattern : re :=
  seq [export_opt; lit "const"; ws1; Group 1 (plus w); lit "Slice"; ws0; lit "="; ws0;
       lit "createSlice("].

(** (?:export\s+)?const\s+{\s*([^}]+)\s*}\s*=\s*(\w+)Slice\.actions *)
Definition action_pattern : re :=
  seq [export_opt; lit "const"; ws1; lit "{"; ws0; Group 1 (plus (NoneOf [Ch "}"])); ws0;
       lit "}"; ws0; lit "="; ws0; Group 2 (plus w); lit "Slice.actions"].

(** (?:export\s+)?const\s+(\w+)Context\s*=\s*(?:React\.)?createContext\( *)
Definition context_pattern : re :=
  seq [export_opt; lit "const"; ws1; Group 1 (plus w); lit "Context"; ws0; lit "="; ws0;
       opt (lit "React."); lit "createContext("].

(** (?:export\s+)?(?:const|function)\s+(\w+)Provider\s*=\s*\(\s*{\s*children\s*} *)
Definition provider_pattern : re :=
  seq [export_opt; alts [lit "const"; lit "function"]; ws1; Group 1 (plus w);
       lit "Provider"; ws0; lit "="; ws0; lit "("; ws0; lit "{"; ws0; lit "children"; ws0;
       lit "}"].

Definition redux_indicators : list string :=
  ["createStore"; "createSlice"; "useDispatch"; "useSelector"; "combineReducers"; "Provider"].

Definition named_state (kind suffix file_path : string) (m : mres) : state_pattern :=
  {| sp_type := kind; sp_name := group_str m 1 +:+ suffix; sp_slice := None;
     sp_file_path := file_path |}.

(** [extract_state_management(content, file_path)] *)
Definition extract_state_management (content file_path : string) (st : index)
    : list state_pattern * index :=
  let redux_count :=
    length (filter (fun indicator => Py.contains indicator content = true) redux_indicators) in
  let redux :=
    if 2 <=? redux_count then
      map (named_state "redux_reducer" "Reducer" file_path)
          (finditer no_flags reducer_pattern content)
      ++ map (named_state "redux_slice" "Slice" file_path)
             (finditer no_flags slice_pattern content)
      ++ concat (map (fun m =>
                        map (fun action =>
                               {| sp_type := "redux_action"; sp_name := Py.strip action;
                                  sp_slice := Some (group_str m 2);
                                  sp_file_path := file_path |})
                            (Py.split "," (group_str m 1)))
                     (finditer no_flags action_pattern content))
    else [] in
  let context :=
    if Py.contains "createContext" content then
      map (named_state "context" "Context" file_path)
          (finditer no_flags context_pattern content)
      ++ map (named_state "context_provider" "Provider" file_path)
             (finditer no_flags provider_pattern content)
    else [] in
  let state_patterns := redux ++ context in
  (state_patterns, set_state_management (state_management st ++ state_patterns) st).

(** ** The environment of a run

    What the program obtains from outside the modelled code. *)

Inductive exn : Type :=
| OSError (message : string)
| TypeError
| AttributeError (message : string)
| ValueError (message : string)
| KeyError (key : string)
| IndexError.

Inductive result (A : Type) : Type :=
| Ok (a : A)
| Raise (e : exn).
Arguments Ok {A} a.
Arguments Raise {A} e.

(** A parsed JSON document, as [json.load] returns it; the members of an
    object are the items of the resulting [dict], one per key. *)
#[local] Set Warnings "-register-all".
Inductive json : Type :=
| JObject (members : list (string * json))    (* dict, in document order *)
| JArray (items : list json)                  (* list *)
| JString (s : string)                        (* str *)
| JInt (n : Z)                                (* int *)
| JFloat (text : string)                      (* float *)
| JBool (b : bool)                            (* bool *)
| JNull.                                      (* NoneType *)

Inductive read_result : Type :=
| ReadOk (content : string)
| ReadError (message : string).               (* [open] or [read] raised *)

Inductive json_result : Type :=
| JsonValue (value : json)
| JsonDecodeError                             (* [json.JSONDecodeError] *)
| JsonError (e : exn).                        (* any other exception *)

(** The facts the seven enhanced analyses of [process_file] find in one file
    (import dependencies, complex types, API endpoints, style definitions,
    hook definitions, routes, security concerns).  The analyses read the
    text and the path only and do not write to the index themselves. *)
Record enhanced_facts : Type := {
  ef_import_dependencies : list dependency;
  ef_complex_types : list complex_type;
  ef_api_endpoints : list enhanced_endpoint;
  ef_style_definitions : list style_definition;
  ef_hook_definitions : list hook_definition;
  ef_routes : list nav_route;
  ef_security_concerns : list security_concern
}.

Record env : Type := {
  (** [open(path, 'r', encoding='utf-8', errors='replace').read()] *)
  read_text : string -> read_result;
  (** [json.load] on the file at a path *)
  load_json : string -> json_result;
  (** [str(value)] of a JSON value, as an f-string formats it *)
  str_of_json : json -> string;
  (** the enhanced analyses, given the extension, the text and the path; an
      analysis that raises contributes nothing, nor do those after it *)
  enhanced_analyses : string -> string -> string -> enhanced_facts;
  (** [datetime.datetime.now().strftime('%Y-%m-%d %H:%M:%S')] *)
  timestamp : string;
  (** the two renderers that are not modelled *)
  generate_json_output : index -> result string;
  generate_markdown_output : index -> result string
}.

(** ** The per-file aggregator *)

(** The bundle [process_file] returns, with the keys its readers use.  An
    absent key is the empty list; ['types'] is set when one of its three
    lists is non-empty. *)
Record file_info : Type := {
  fi_components : list component;
  fi_hooks : list hook;
  fi_services : list service;
  fi_types : types_info;
  fi_navigation : list route;
  fi_state_management : list state_pattern;
  fi_imports : list import_info;
  fi_error : option string;
  fi_json_data : option json;
  fi_database_schemas : list schema
}.

Definition no_types : types_info :=
  {| ti_interfaces := []; ti_types := []; ti_enums := [] |}.

Definition empty_info : file_info := {|
  fi_components := []; fi_hooks := []; fi_services := []; fi_types := no_types;
  fi_navigation := []; fi_state_management := []; fi_imports := [];
  fi_error := None; fi_json_data := None; fi_database_schemas := []
|}.

(** import\s+(?:{([^}]+)}|(\w+))\s+from\s+['DQ]([^'DQ]+)['DQ] *)
Definition import_pattern : re :=
  seq [lit "import"; ws1;
       Alt (seq [lit "{"; Group 1 (plus (NoneOf [Ch "}"])); lit "}"]) (Group 2 (plus w));
       ws1; lit "from"; ws1; One quote_cls; Group 3 (plus not_quote_cls); One quote_cls].

Definition imports_of (content : string) : list import_info :=
  omap (fun m =>
          if Py.otruthy (group m 1) then
            Some {| im_module := group_str m 3;
                    im_imports := map Py.strip (Py.split "," (group_str m 1)) |}
          else if Py.otruthy (group m 2) then
            Some {| im_module := group_str m 3; im_imports := [group_str m 2] |}
          else None)
       (finditer no_flags import_pattern content).

(** [process_tsx_file(file_path)] *)
Definition process_tsx_file (E : env) (cfg : config) (file_path : string) (st : index)
    : file_info * index :=
  match read_text E file_path with
  | ReadError message =>
      ({| fi_components := []; fi_hooks := []; fi_services := []; fi_types := no_types;
          fi_navigation := []; fi_state_management := []; fi_imports := [];
          fi_error := Some message; fi_json_data := None; fi_database_schemas := [] |}, st)
  | ReadOk content =>
      let '(components, st) := extract_react_component cfg content file_path st in
      let '(hooks_, st) := extract_hooks content file_path st in
      let '(services_, st) := extract_services content file_path st in
      let '(types, st) := extract_types content file_path st in
      let '(navigation, st) := extract_navigation content file_path st in
      let '(state_management_, st) := extract_state_management content file_path st in
      ({| fi_components := components; fi_hooks := hooks_; fi_services := services_;
          fi_types := types; fi_navigation := navigation;
          fi_state_management := state_management_; fi_imports := imports_of content;
          fi_error := None; fi_json_data := None; fi_database_schemas := [] |}, st)
  end.

(** [os.path.splitext(path)[1].lower()]: the suffix of the file name from its
    last dot, the leading dots of the name not counting. *)
Fixpoint last_dot_suffix (name : string) : option string :=
  match name with
  | EmptyString => None
  | String c name' =>
      match last_dot_suffix name' with
      | Some suffix => Some suffix
      | None => if Ascii.eqb c "." then Some name else None
      end
  end.

Definition file_ext (file_path : string) : string :=
  let name := Py.basename file_path in
  let stem := Py.lstrip_with (fun c => Ascii.eqb c ".") name in
  Py.lower (default EmptyString (last_dot_suffix stem)).

Definition source_exts : list string := [".tsx"; ".ts"; ".jsx"; ".js"].

Definition is_source_ext (ext : string) : bool := bool_decide (ext ∈ source_exts).

(** The second half of [process_file]: schema extraction for every file and
    the enhanced analyses for source files, inside one [try] whose handler
    only prints. *)
Definition enhanced_block (E : env) (ext file_path : string) (info : file_info)
    (st : index) : file_info * index :=
  match read_text E file_path with
  | ReadError _ => (info, st)
  | ReadOk content =>
      match extract_database_schema content file_path with
      | None => (info, st)
      | Some schemas =>
          let info :=
            {| fi_components := fi_components info; fi_hooks := fi_hooks info;
               fi_services := fi_services info; fi_types := fi_types info;
               fi_navigation := fi_navigation info;
               fi_state_management := fi_state_management info;
               fi_imports := fi_imports info; fi_error := fi_error info;
               fi_json_data := fi_json_data info; fi_database_schemas := schemas |} in
          let st := set_database_schemas (database_schemas st ++ schemas) st in
          if is_source_ext ext then
            let facts := enhanced_analyses E ext content file_path in
            let st := set_import_dependencies
                        (import_dependencies st ++ ef_import_dependencies facts) st in
            let st := set_complex_types (complex_types st ++ ef_complex_types facts) st in
            let st := set_enhanced_api_endpoints
                        (enhanced_api_endpoints st ++ ef_api_endpoints facts) st in
            let st := set_style_patterns (style_patterns st ++ ef_style_definitions facts) st in
            let st := set_hook_usages_analysis
                        (hook_usages_analysis st ++ ef_hook_definitions facts) st in
            let st := set_enhanced_navigation (enhanced_navigation st ++ ef_routes facts) st in
            let st := set_security_patterns
                        (security_patterns st ++ ef_security_concerns facts) st in
            (info, st)
          else (info, st)
      end
  end.

(** [process_file(file_path)]: the bundle or the exception, and the index
    after the call. *)
Definition process_file (E : env) (cfg : config) (file_path : string) (st : index)
    : result file_info * index :=
  let ext := file_ext file_path in
  if is_source_ext ext then
    let '(info, st) := process_tsx_file E cfg file_path st in
    let '(info, st) := enhanced_block E ext file_path info st in
    (Ok info, st)
  else if String.eqb ext ".json" then
    match load_json E file_path with
    | JsonError e => (Raise e, st)
    | JsonDecodeError =>
        let info :=
          {| fi_components := []; fi_hooks := []; fi_services := []; fi_types := no_types;
             fi_navigation := []; fi_state_management := []; fi_imports := [];
             fi_error := Some "Invalid JSON file"; fi_json_data := None;
             fi_database_schemas := [] |} in
        let '(info, st) := enhanced_block E ext file_path info st in
        (Ok info, st)
    | JsonValue value =>
        let info :=
          {| fi_components := []; fi_hooks := []; fi_services := []; fi_types := no_types;
             fi_navigation := []; fi_state_management := []; fi_imports := [];
             fi_error := None; fi_json_data := Some value; fi_database_schemas := [] |} in
        let '(info, st) := enhanced_block E ext file_path info st in
        (Ok info, st)
    end
  else
    let '(info, st) := enhanced_block E ext file_path empty_info st in
    (Ok info, st).

(** ** Formatting the summary of a file *)

(** [d[key].append(x)] on a dictionary of lists; the groups stay in the order
    in which their keys were first seen, as the items of a [dict] do. *)
Fixpoint group_add {A : Type} (key : string) (x : A) (groups : list (string * list A))
    : list (string * list A) :=
  match groups with
  | [] => [(key, [x])]
  | (k, l) :: groups' =>
      if String.eqb k key then (k, l ++ [x]) :: groups'
      else (k, l) :: group_add key x groups'
  end.

Definition group_by {A : Type} (key : A -> string) (l : list A) : list (string * list A) :=
  foldl (fun groups x => group_add (key x) x groups) [] l.

(** [s.replace(a, b)] for single characters. *)
Definition replace_char (a b : ascii) (s : string) : string :=
  Py.map_chars (fun c => if Ascii.eqb c a then b else c) s.

(** [s.title()]: a letter that follows a letter is lowered, any other letter
    is raised. *)
Fixpoint title_from (after_letter : bool) (s : string) : string :=
  match s with
  | EmptyString => EmptyString
  | String c s' =>
      String (if Py.is_alpha c
              then (if after_letter then Py.lower_char c else Py.upper_char c)
              else c)
             (title_from (Py.is_alpha c) s')
  end.

Definition title (s : string) : string := title_from false s.

Definition bullets (indent : string) (items : list string) : list string :=
  map (fun item => indent +:+ "- " +:+ item) items.

(** A heading followed by its items, when there are items. *)
Definition titled (heading : string) (items : list string) : list string :=
  match items with
  | [] => []
  | _ => heading :: items
  end.

Definition param_text (p : param) : string := p_name p +:+ ": " +:+ p_type p.

(** [format_component_info(component)] *)
Definition format_component_info (c : component) : list string :=
  ["Component: " +:+ c_name c +:+ " (" +:+ c_type c +:+ ")"]
  ++ titled "  Props:" (bullets "    " (map param_text (c_props c)))
  ++ titled "  Hooks used:" (bullets "    " (c_hooks_used c))
  ++ titled "  API calls:" (bullets "    " (c_api_calls c))
  ++ titled "  Performance issues:" (bullets "    " (c_performance_issues c))
  ++ titled "  React Native issues:" (bullets "    " (c_react_native_issues c)).

(** [format_hook_info(hook)] *)
Definition format_hook_info (h : hook) : list string :=
  ["Hook: " +:+ h_name h]
  ++ titled "  Parameters:" (bullets "    " (map param_text (h_params h)))
  ++ titled "  Returns:" (bullets "    " (h_returns h))
  ++ titled "  Uses hooks:" (bullets "    " (h_uses_hooks h))
  ++ titled "  API calls:" (bullets "    " (h_api_calls h)).

Definition method_text (m : method) : string :=
  mt_name m +:+ "(" +:+ Py.join ", " (map param_text (mt_params m)) +:+ ")"
  +:+ (if Py.otruthy (mt_return_type m)
       then " -> " +:+ default EmptyString (mt_return_type m) else EmptyString).

Definition service_title (s : service) : string :=
  "Service: " +:+ s_name s
  +:+ (if s_is_singleton s then " (Singleton)" else EmptyString)
  +:+ (if Py.otruthy (s_parent_class s)
       then " extends " +:+ default EmptyString (s_parent_class s) else EmptyString).

(** [format_service_info(service)] *)
Definition format_service_info (s : service) : list string :=
  [service_title s]
  ++ titled "  Methods:" (bullets "    " (map method_text (s_methods s)))
  ++ titled "  API Endpoints:" (bullets "    " (s_api_endpoints s)).

Definition types_present (t : types_info) : bool :=
  negb (bool_decide (ti_interfaces t = [])) || negb (bool_decide (ti_types t = []))
  || negb (bool_decide (ti_enums t = [])).

(** [format_type_info(types)] *)
Definition format_type_info (t : types_info) : list string :=
  titled "  Interfaces:"
    (concat (map (fun i =>
                    ("    - " +:+ i_name i
                     +:+ (if Py.otruthy (i_parent i)
                          then " extends " +:+ default EmptyString (i_parent i)
                          else EmptyString))
                    :: bullets "      " (map param_text (i_properties i)))
                 (ti_interfaces t)))
  ++ titled "  Type Aliases:"
       (map (fun a => "    - " +:+ t_name a +:+ " = " +:+ t_definition a) (ti_types t))
  ++ titled "  Enums:"
       (concat (map (fun e =>
                       ("    - " +:+ en_name e)
                       :: map (fun v =>
                                 "      - " +:+ ev_name v
                                 +:+ (if Py.otruthy (ev_value v)
                                      then " = " +:+ default EmptyString (ev_value v)
                                      else EmptyString))
                              (en_values e))
                    (ti_enums t))).

Definition route_text (r : route) : string :=
  r_name r +:+ (if Py.otruthy (r_component r)
                then " -> " +:+ default EmptyString (r_component r) else EmptyString).

(** [format_navigation_info(navigation)] *)
Definition format_navigation_info (navigation : list route) : list string :=
  map (fun r => "  Route: " +:+ route_text r) navigation.

(** [format_state_management_info(state_management)] *)
Definition format_state_management_info (l : list state_pattern) : list string :=
  concat (map (fun '(state_type, states) =>
                 ("  " +:+ title (replace_char "_" " " state_type) +:+ ":")
                 :: map (fun s => "    - " +:+ sp_name s) states)
              (group_by sp_type l)).

(** One of the sections of a [package.json]: at most [limit] entries, then
    the remainder marker. *)
Definition py_in (key : string) (j : json) : result bool :=
  match j with
  | JObject members => Ok (bool_decide (key ∈ map fst members))
  | JArray items => Ok (existsb (fun v => match v with
                                           | JString s => String.eqb s key
                                           | _ => false
                                           end) items)
  | JString s => Ok (Py.contains key s)
  | _ => Raise TypeError
  end.

Definition py_getitem (key : string) (j : json) : result json :=
  match j with
  | JObject members =>
      match list_find (fun kv => fst kv = key) members with
      | Some (_, kv) => Ok (snd kv)
      | None => Raise (KeyError key)
      end
  | _ => Raise TypeError
  end.

Definition py_items (j : json) : result (list (string * json)) :=
  match j with
  | JObject members => Ok members
  | _ => Raise (AttributeError "items")
  end.

Definition package_section (E : env) (key heading more : string) (limit : nat)
    (json_data : json) : result (list string) :=
  match py_in key json_data with
  | Raise e => Raise e
  | Ok false => Ok []
  | Ok true =>
      match py_getitem key json_data with
      | Raise e => Raise e
      | Ok value =>
          match py_items value with
          | Raise e => Raise e
          | Ok items =>
              Ok ([heading]
                  ++ map (fun '(name, version) =>
                            "#   " +:+ name +:+ ": " +:+ str_of_json E version)
                         (take limit items)
                  ++ (if limit <? length items
                      then ["#   ... and " +:+ Py.str_nat (length items - limit)
                            +:+ " more " +:+ more]
                      else []))
          end
      end
  end.

(** [type(value).__name__] *)
Definition type_name (j : json) : string :=
  match j with
  | JObject _ => "dict"
  | JArray _ => "list"
  | JString _ => "str"
  | JInt _ => "int"
  | JFloat _ => "float"
  | JBool _ => "bool"
  | JNull => "NoneType"
  end.

Definition json_summary (E : env) (file_path : string) (json_data : json)
    : result (list string) :=
  if Py.endswith "package.json" file_path then
    match package_section E "dependencies" "# Dependencies:" "dependencies" 10 json_data with
    | Raise e => Raise e
    | Ok deps =>
        match package_section E "devDependencies" "# Dev Dependencies:"
                "dev dependencies" 5 json_data with
        | Raise e => Raise e
        | Ok dev =>
            match package_section E "scripts" "# Scripts:" "scripts" 5 json_data with
            | Raise e => Raise e
            | Ok scripts => Ok (["# JSON Structure:"] ++ deps ++ dev ++ scripts)
            end
        end
    end
  else
    match json_data with
    | JObject members =>
        Ok (["# JSON Structure:"; "# Top-level keys:"]
            ++ map (fun '(key, value) => "#   " +:+ key +:+ ": " +:+ type_name value) members)
    | _ => Raise (AttributeError "keys")
    end.

Definition imports_summary (imports : list import_info) : list string :=
  match imports with
  | [] => []
  | _ =>
      ["# Imports:"]
      ++ map (fun i => "# import { " +:+ Py.join ", " (im_imports i) +:+ " } from '"
                       +:+ im_module i +:+ "'")
             (take 5 imports)
      ++ (if 5 <? length imports
          then ["# ... and " +:+ Py.str_nat (length imports - 5) +:+ " more imports"]
          else [])
      ++ [EmptyString]
  end.

(** A titled block of the summary: the heading, the lines, a blank line. *)
Definition block {A : Type} (heading : string) (items : list A) (lines : list string)
    : list string :=
  match items with
  | [] => []
  | _ => [heading] ++ lines ++ [EmptyString]
  end.

(** [format_file_summary(file_path, rel_path, file_info)] *)
Definition format_file_summary (E : env) (file_path rel_path : string)
    (info : file_info) : result (list string) :=
  let ext := file_ext file_path in
  if is_source_ext ext then
    Ok (imports_summary (fi_imports info)
        ++ titled "# Components:"
             (concat (map (fun c => format_component_info c ++ [EmptyString])
                          (fi_components info)))
        ++ titled "# Hooks:"
             (concat (map (fun h => format_hook_info h ++ [EmptyString]) (fi_hooks info)))
        ++ titled "# Services:"
             (concat (map (fun s => format_service_info s ++ [EmptyString])
                          (fi_services info)))
        ++ (if types_present (fi_types info)
            then ["# Type Definitions:"] ++ format_type_info (fi_types info) ++ [EmptyString]
            else [])
        ++ block "# Navigation:" (fi_navigation info)
                 (format_navigation_info (fi_navigation info))
        ++ block "# State Management:" (fi_state_management info)
                 (format_state_management_info (fi_state_management info)))
  else if String.eqb ext ".json" then
    match load_json E file_path with
    | JsonError e => Raise e
    | JsonDecodeError => Ok ["# Invalid JSON file"; EmptyString]
    | JsonValue json_data =>
        match json_summary E file_path json_data with
        | Raise e => Raise e
        | Ok lines => Ok (lines ++ [EmptyString])
        end
    end
  else Ok ["# " +:+ Py.drop 1 ext +:+ " file - detailed extraction not supported"].

(** ** The run coordinator: [extract_context] *)

(** The three counters of the loop. *)
Record counts : Type := {
  processed_count : nat;
  excluded_count : nat;
  error_count : nat
}.

Definition no_counts : counts :=
  {| processed_count := 0; excluded_count := 0; error_count := 0 |}.

Definition count_processed (c : counts) : counts :=
  {| processed_count := S (processed_count c); excluded_count := excluded_count c;
     error_count := error_count c |}.
Definition count_excluded (c : counts) : counts :=
  {| processed_count := processed_count c; excluded_count := S (excluded_count c);
     error_count := error_count c |}.
Definition count_error (c : counts) : counts :=
  {| processed_count := processed_count c; excluded_count := excluded_count c;
     error_count := S (error_count c) |}.

(** The loop [for file_path, rel_path in self.files] with its two [break]s,
    its [continue] and its exception handler. *)
Fixpoint process_files (E : env) (cfg : config) (fl : list (string * string))
    (st : index) (c : counts) : index * counts :=
  match fl with
  | [] => (st, c)
  | (file_path, rel_path) :: rest =>
      if (max_lines cfg <=? total_lines st)%Z then (st, c)
      else
        match process_file E cfg file_path st with
        | (Raise _, st) => process_files E cfg rest st (count_error c)
        | (Ok info, st) =>
            let c := count_processed c in
            match format_file_summary E file_path rel_path info with
            | Raise _ => process_files E cfg rest st (count_error c)
            | Ok [] => process_files E cfg rest st (count_excluded c)
            | Ok summary_lines =>
                let cost := (Z.of_nat (length summary_lines) + 3)%Z in
                if (max_lines cfg <? total_lines st + cost)%Z then (st, c)
                else
                  let st := set_file_summaries
                              (file_summaries st
                               ++ [{| fs_path := rel_path; fs_lines := summary_lines |}]) st in
                  let st := set_total_lines (total_lines st + cost)%Z st in
                  process_files E cfg rest st c
            end
        end
  end.

(** [self.files.sort(key=lambda x: x[1])]: a stable sort on the relative
    path, strings being compared character by character. *)
Fixpoint insert_by_path (x : string * string) (sorted : list (string * string))
    : list (string * string) :=
  match sorted with
  | [] => [x]
  | y :: sorted' =>
      if String.leb (snd x) (snd y) then x :: sorted
      else y :: insert_by_path x sorted'
  end.

Definition sort_by_path (l : list (string * string)) : list (string * string) :=
  foldr insert_by_path [] l.

(** ** The renderer *)

(** [sorted(l, key=..., reverse=True)]: descending, equal keys keeping their
    order. *)
Fixpoint insert_desc {A : Type} (key : A -> nat) (x : A) (sorted : list A) : list A :=
  match sorted with
  | [] => [x]
  | y :: sorted' =>
      if key y <=? key x then x :: sorted
      else y :: insert_desc key x sorted'
  end.

Definition sort_desc {A : Type} (key : A -> nat) (l : list A) : list A :=
  foldr (insert_desc key) [] l.

(** [sorted(d.items())] for a dictionary with string keys. *)
Fixpoint insert_by_key {A : Type} (x : string * A) (sorted : list (string * A))
    : list (string * A) :=
  match sorted with
  | [] => [x]
  | y :: sorted' =>
      if String.leb (fst x) (fst y) then x :: sorted
      else y :: insert_by_key x sorted'
  end.

Definition sort_by_key {A : Type} (l : list (string * A)) : list (string * A) :=
  foldr insert_by_key [] l.

(** A section that is emitted only when its collection is non-empty. *)
Definition section {A : Type} (collection : list A) (lines : list string) : list string :=
  match collection with
  | [] => []
  | _ => lines
  end.

Definition header (E : env) (st : index) : list string :=
  ["=== AI KNOWLEDGE BASE CODE CONTEXT ===";
   "Generated on: " +:+ timestamp E;
   "Total files processed: " +:+ Py.str_nat (length (files st));
   EmptyString].

Definition complexity_section (st : index) : list string :=
  section (component_complexity st)
    (["=== COMPONENT COMPLEXITY ===";
      "(Components with complexity > 10, sorted by complexity)";
      "Component Name | Complexity | File";
      "--------------|------------|-----"]
     ++ map (fun c => cx_name c +:+ " | " +:+ Py.str_nat (cx_complexity c) +:+ " | "
                      +:+ Py.basename (cx_file_path c))
            (take 20 (sort_desc cx_complexity (component_complexity st)))
     ++ [EmptyString;
         "Complexity Guidelines:";
         "- 0-5: Simple component";
         "- 6-10: Moderate complexity";
         "- 11-20: Complex component";
         "- 21+: Very complex, consider refactoring";
         EmptyString]).

Definition hooks_section (st : index) : list string :=
  section (hooks st)
    ("=== CUSTOM HOOKS ==="
     :: concat (map (fun h =>
                       ["Hook: " +:+ h_name h +:+ " (from " +:+ Py.basename (h_file_path h)
                        +:+ ")"]
                       ++ titled "  Parameters:" (bullets "    " (map param_text (h_params h)))
                       ++ titled "  Returns:" (bullets "    " (h_returns h))
                       ++ titled "  Uses hooks:" (bullets "    " (h_uses_hooks h))
                       ++ titled "  API calls:" (bullets "    " (h_api_calls h))
                       ++ [EmptyString])
                    (hooks st))).

Definition services_section (st : index) : list string :=
  section (services st)
    ("=== SERVICES ==="
     :: concat (map (fun s =>
                       [service_title s +:+ " (from " +:+ Py.basename (s_file_path s) +:+ ")"]
                       ++ titled "  Methods:" (bullets "    " (map method_text (s_methods s)))
                       ++ titled "  API Endpoints:" (bullets "    " (s_api_endpoints s))
                       ++ [EmptyString])
                    (services st))).

Definition api_endpoints_section (st : index) : list string :=
  section (api_endpoints st)
    ("=== API ENDPOINTS ==="
     :: concat (map (fun e =>
                       ["Endpoint: " +:+ e_endpoint e;
                        "  Service: " +:+ e_service e;
                        "  File: " +:+ Py.basename (e_file_path e);
                        EmptyString])
                    (api_endpoints st))).

Definition navigation_section (st : index) : list string :=
  section (navigation_routes st)
    ("=== NAVIGATION ROUTES ==="
     :: concat (map (fun r =>
                       ["Route: " +:+ route_text r;
                        "  File: " +:+ Py.basename (r_file_path r);
                        EmptyString])
                    (navigation_routes st))).

Definition state_section (st : index) : list string :=
  section (state_management st)
    ("=== STATE MANAGEMENT ==="
     :: concat (map (fun '(state_type, states) =>
                       [title (replace_char "_" " " state_type) +:+ ":"]
                       ++ map (fun s => "  - " +:+ sp_name s +:+ " (from "
                                        +:+ Py.basename (sp_file_path s) +:+ ")") states
                       ++ [EmptyString])
                    (group_by sp_type (state_management st)))).

Definition column_text (s : schema) (c : column) : string :=
  col_name c +:+ ": " +:+ col_type c +:+ " "
  +:+ (if col_nullable c then "NULL" else "NOT NULL")
  +:+ match col_default c with
      | Some d => " DEFAULT " +:+ d
      | None => EmptyString
      end
  +:+ (if bool_decide (col_name c ∈ primary_keys s) then " PRIMARY KEY" else EmptyString).

Definition index_text (i : db_index) : string :=
  (if idx_unique i then "UNIQUE " else EmptyString)
  +:+ "INDEX " +:+ idx_name i +:+ " (" +:+ Py.join ", " (idx_columns i) +:+ ")".

Definition schema_lines (s : schema) : list string :=
  ["Table: " +:+ table_name s +:+ " (from " +:+ Py.basename (schema_file_path s) +:+ ")";
   "  Columns:"]
  ++ bullets "    " (map (column_text s) (columns s))
  ++ titled "  Primary Keys:" (bullets "    " (primary_keys s))
  ++ titled "  Foreign Keys:"
       (bullets "    " (map (fun fk => fk_column fk +:+ "  " +:+ fk_ref_table fk +:+ "."
                                        +:+ fk_ref_column fk)
                            (foreign_keys s)))
  ++ titled "  Indices:" (bullets "    " (map index_text (indices s)))
  ++ [EmptyString].

Definition schemas_section (st : index) : list string :=
  section (database_schemas st)
    ("=== DATABASE SCHEMAS ===" :: concat (map schema_lines (database_schemas st))).

Definition count_type (kind : string) (deps : list dependency) : nat :=
  length (filter (fun d => dep_type d = kind) deps).

Definition import_kinds (deps : list dependency) : list string :=
  (if 0 <? count_type "named" deps
   then [Py.str_nat (count_type "named" deps) +:+ " named"] else [])
  ++ (if 0 <? count_type "default" deps
      then [Py.str_nat (count_type "default" deps) +:+ " default"] else [])
  ++ (if 0 <? count_type "side_effect" deps
      then [Py.str_nat (count_type "side_effect" deps) +:+ " side-effect"] else []).

Definition dependencies_section (st : index) : list string :=
  section (import_dependencies st)
    ("=== MODULE DEPENDENCIES ==="
     :: map (fun '(source, deps) =>
               "Module: " +:+ source +:+ " - " +:+ Py.str_nat (length deps) +:+ " imports ("
               +:+ Py.join ", " (import_kinds deps) +:+ ")")
            (take 20 (sort_desc (fun g => length (snd g))
                                (group_by dep_source (import_dependencies st))))
     ++ [EmptyString]).

Definition is_interface (t : complex_type) : bool :=
  match t with CTInterface _ _ _ _ => true | CTAlias _ _ _ _ => false end.

Definition property_count (t : complex_type) : nat :=
  match t with
  | CTInterface _ _ properties _ => length properties
  | CTAlias _ _ _ _ => 0
  end.

Definition interface_text (t : complex_type) : string :=
  match t with
  | CTInterface name extends properties _ =>
      "- " +:+ name
      +:+ (if Py.otruthy extends then " extends " +:+ default EmptyString extends
           else EmptyString)
      +:+ " - " +:+ Py.str_nat (length properties) +:+ " properties"
  | CTAlias _ _ _ _ => EmptyString
  end.

Definition category_of (t : complex_type) : string :=
  match t with
  | CTAlias _ _ _ category => category
  | CTInterface _ _ _ _ => "unknown"
  end.

Definition types_section (st : index) : list string :=
  let interfaces_ := filter (fun t => is_interface t = true) (complex_types st) in
  let types := filter (fun t => is_interface t = false) (complex_types st) in
  section (complex_types st)
    (["=== TYPE SYSTEM ANALYSIS ===";
      "Total Interfaces: " +:+ Py.str_nat (length interfaces_);
      "Total Type Aliases: " +:+ Py.str_nat (length types);
      EmptyString]
     ++ section interfaces_
          ("Most Complex Interfaces:"
           :: map interface_text (take 5 (sort_desc property_count interfaces_)))
     ++ [EmptyString]
     ++ section types
          ("Type Alias Categories:"
           :: map (fun '(cat, members) => "- " +:+ cat +:+ ": " +:+ Py.str_nat (length members))
                  (sort_desc (fun g => length (snd g)) (group_by category_of types)))
     ++ [EmptyString]).

Definition endpoint_lines (e : enhanced_endpoint) : list string :=
  ["- " +:+ ee_endpoint e]
  ++ (if Py.otruthy (ee_function e)
      then ["  Function: " +:+ default EmptyString (ee_function e)] else [])
  ++ (if Py.otruthy (ee_return_type e)
      then ["  Returns: " +:+ default EmptyString (ee_return_type e)] else []).

(** The endpoints of one HTTP method: the first ten, then the remainder
    marker. *)
Definition method_lines (method : string) (endpoints : list enhanced_endpoint)
    : list string :=
  [method +:+ " Endpoints (" +:+ Py.str_nat (length endpoints) +:+ "):"]
  ++ concat (map endpoint_lines (take 10 endpoints))
  ++ (if 10 <? length endpoints
      then ["  ... and " +:+ Py.str_nat (length endpoints - 10) +:+ " more " +:+ method
            +:+ " endpoints"]
      else [])
  ++ [EmptyString].

Definition by_method (l : list enhanced_endpoint) : list (string * list enhanced_endpoint) :=
  sort_by_key (group_by ee_method l).

Definition enhanced_api_section (st : index) : list string :=
  section (enhanced_api_endpoints st)
    ("=== ENHANCED API DOCUMENTATION ==="
     :: concat (map (fun '(method, endpoints) => method_lines method endpoints)
                    (by_method (enhanced_api_endpoints st)))).

(** The style definitions carry neither a ['style_patterns'] nor an
    ['inline_styles'] key, so both tallies are zero. *)
Definition style_section (st : index) : list string :=
  section (style_patterns st)
    ["=== STYLE PATTERNS ==="; "Total StyleSheet Rules: " +:+ Py.str_nat 0; EmptyString].

Definition hook_definition_lines (h : hook_definition) : list string :=
  ["Hook: " +:+ hd_name h]
  ++ section (hd_states h)
       (["  State Variables: " +:+ Py.str_nat (length (hd_states h))]
        ++ map (fun s => "    - " +:+ hs_name s
                         +:+ (if Py.truthy (hs_initial_value s)
                              then " = " +:+ hs_initial_value s else EmptyString))
               (take 3 (hd_states h))
        ++ (if 3 <? length (hd_states h)
            then ["    ... and " +:+ Py.str_nat (length (hd_states h) - 3)
                  +:+ " more state variables"]
            else []))
  ++ section (hd_effects h)
       (["  Effects: " +:+ Py.str_nat (length (hd_effects h))]
        ++ map (fun e => "    - Dependencies: ["
                         +:+ (match he_dependencies e with
                              | [] => "[]"
                              | deps => Py.join ", " deps
                              end) +:+ "]")
               (take 2 (hd_effects h))
        ++ (if 2 <? length (hd_effects h)
            then ["    ... and " +:+ Py.str_nat (length (hd_effects h) - 2) +:+ " more effects"]
            else []))
  ++ section (hd_memoized h)
       (let callbacks := length (filter (fun m => hm_type m = "callback") (hd_memoized h)) in
        let memos := length (filter (fun m => hm_type m = "memo") (hd_memoized h)) in
        (if 0 <? callbacks then ["  Callbacks: " +:+ Py.str_nat callbacks] else [])
        ++ (if 0 <? memos then ["  Memoized Values: " +:+ Py.str_nat memos] else [])
        ++ [EmptyString]).

Definition hook_analysis_section (st : index) : list string :=
  section (hook_usages_analysis st)
    ("=== ENHANCED HOOK ANALYSIS ==="
     :: concat (map hook_definition_lines (hook_usages_analysis st))).

(** The routes of one navigator type: the first ten, then the remainder
    marker. *)
Definition route_type_lines (route_type : string) (routes : list nav_route) : list string :=
  [route_type +:+ " Routes (" +:+ Py.str_nat (length routes) +:+ "):"]
  ++ map (fun r => "- " +:+ nr_name r
                   +:+ (if Py.truthy (nr_options r) then " (with options)" else EmptyString))
         (take 10 routes)
  ++ (if 10 <? length routes
      then ["  ... and " +:+ Py.str_nat (length routes - 10) +:+ " more " +:+ route_type
            +:+ " routes"]
      else [])
  ++ [EmptyString].

Definition enhanced_navigation_section (st : index) : list string :=
  section (enhanced_navigation st)
    ("=== ENHANCED NAVIGATION ROUTES ==="
     :: concat (map (fun '(route_type, routes) => route_type_lines route_type routes)
                    (group_by nr_type (enhanced_navigation st)))).

(** The occurrences of one security issue: the first five, then the
    remainder marker. *)
Definition issue_lines (issue_type : string) (issues : list security_concern)
    : list string :=
  [issue_type +:+ " (" +:+ Py.str_nat (length issues) +:+ " occurrences):"]
  ++ map (fun i => "- In " +:+ Py.basename (sc_file_path i) +:+ ": `"
                   +:+ (if 100 <? Py.len (sc_context i)
                        then Py.take 100 (sc_context i) +:+ "..."
                        else sc_context i) +:+ "`")
         (take 5 issues)
  ++ (if 5 <? length issues
      then ["  ... and " +:+ Py.str_nat (length issues - 5) +:+ " more occurrences"]
      else [])
  ++ [EmptyString].

Definition by_issue (l : list security_concern) : list (string * list security_concern) :=
  sort_desc (fun g => length (snd g)) (group_by sc_issue l).

Definition security_section (st : index) : list string :=
  section (security_patterns st)
    ("=== SECURITY ANALYSIS ==="
     :: concat (map (fun '(issue_type, issues) => issue_lines issue_type issues)
                    (by_issue (security_patterns st)))).

Definition dashes : string :=
  "--------------------------------------------------------------------------------".

Definition summaries_section (st : index) : list string :=
  section (file_summaries st)
    ("=== FILE SUMMARIES ==="
     :: concat (map (fun f => ["=== " +:+ fs_path f +:+ " ==="] ++ fs_lines f
                              ++ [EmptyString; dashes; EmptyString])
                    (file_summaries st))).

(** The lines of the text report, section by section. *)
Definition text_lines (E : env) (st : index) : list string :=
  header E st
  ++ complexity_section st
  ++ hooks_section st
  ++ services_section st
  ++ api_endpoints_section st
  ++ navigation_section st
  ++ state_section st
  ++ schemas_section st
  ++ dependencies_section st
  ++ types_section st
  ++ enhanced_api_section st
  ++ style_section st
  ++ hook_analysis_section st
  ++ enhanced_navigation_section st
  ++ security_section st
  ++ summaries_section st.

Definition nl : string := String newline EmptyString.

(** [generate_text_output()] *)
Definition generate_text_output (E : env) (st : index) : string :=
  Py.join nl (text_lines E st).

(** [generate_output(format)].  The class defines no [generate_html_output]:
    looking the attribute up raises [AttributeError]. *)
Definition generate_output (E : env) (st : index) (format : string) : result string :=
  if String.eqb format "text" then Ok (generate_text_output E st)
  else if String.eqb format "json" then generate_json_output E st
  else if String.eqb format "markdown" then generate_markdown_output E st
  else if String.eqb format "html" then
    Raise (AttributeError
             "'CodeContextExtractor' object has no attribute 'generate_html_output'")
  else Raise (ValueError ("Unsupported output format: " +:+ format)).

(** What a run leaves behind: the index, the counters, and the text handed
    to the writer of the output file ([None] when rendering raised). *)
Record run : Type := {
  run_index : index;
  run_counts : counts;
  run_output : option string
}.

(** [extract_context(root_dir, output_file, format)], given what
    [collect_files(root_dir)] returns.  [None] is the early return taken when
    collecting the files raises. *)
Definition extract_context (E : env) (cfg : config)
    (collected : result (list (string * string))) (format : string) (st : index)
    : option run :=
  match collected with
  | Raise _ => None
  | Ok found =>
      let st := set_files (sort_by_path found) st in
      let '(st, c) := process_files E cfg (files st) st no_counts in
      Some {| run_index := st;
              run_counts := c;
              run_output := match generate_output E st format with
                            | Ok output_content => Some output_content
                            | Raise _ => None
                            end |}
  end.

(** ** The command line: [main] *)




(** ** Observations on the index used in the statements below *)

(** The index with the attributes written by [extract_services] blanked. *)
Definition outside_services (st : index) : index :=
  set_services [] (set_api_endpoints [] st).

(** The index with the attributes written by [extract_react_component]
    blanked. *)
Definition outside_components (st : index) : index :=
  set_hook_usages ∅
    (set_api_calls ∅
       (set_component_complexity []
          (set_component_props ∅
             (set_performance_issues []
                (set_react_native_issues [] (set_state_flows ∅ st)))))).

(** Every list-valued attribute of [st'] starts with the same attribute of
    [st]: facts were appended at the end, none removed, changed or moved. *)
Definition lists_extended (st st' : index) : Prop :=
  hooks st `prefix_of` hooks st'
  ∧ services st `prefix_of` services st'
  ∧ api_endpoints st `prefix_of` api_endpoints st'
  ∧ state_management st `prefix_of` state_management st'
  ∧ navigation_routes st `prefix_of` navigation_routes st'
  ∧ file_summaries st `prefix_of` file_summaries st'
  ∧ component_complexity st `prefix_of` component_complexity st'
  ∧ performance_issues st `prefix_of` performance_issues st'
  ∧ react_native_issues st `prefix_of` react_native_issues st'
  ∧ database_schemas st `prefix_of` database_schemas st'
  ∧ import_dependencies st `prefix_of` import_dependencies st'
  ∧ complex_types st `prefix_of` complex_types st'
  ∧ enhanced_api_endpoints st `prefix_of` enhanced_api_endpoints st'
  ∧ style_patterns st `prefix_of` style_patterns st'
  ∧ hook_usages_analysis st `prefix_of` hook_usages_analysis st'
  ∧ enhanced_navigation st `prefix_of` enhanced_navigation st'
  ∧ security_patterns st `prefix_of` security_patterns st'.

(** The entry of the global complexity list for a component. *)
Definition complexity_entry_of (c : component) : complexity_entry :=
  {| cx_name := c_name c; cx_file_path := c_file_path c; cx_complexity := c_complexity c |}.

(** The entries [extract_react_component] adds to the global complexity list
    for the components it returns: those whose score exceeds 10. *)
Definition flagged (cs : list component) : list complexity_entry :=
  map complexity_entry_of (filter (λ c, 10 < c_complexity c) cs).

(** The score of a component as the recognizer computes it: the hook usages
    found (every occurrence), the API call sites, the conditional markers of
    the file and, for a class component, its state accesses. *)
Definition score_ok (content : string) (c : component) : Prop :=
  c_complexity c
  = length (c_hooks_used c) + length (c_api_calls c) + conditional_markers content
    + (if String.eqb (c_type c) "class" then class_state_uses content else 0).

(** The score with the hook usages counted once each. *)
Definition distinct_score (content : string) (c : component) : nat :=
  length (remove_dups (c_hooks_used c)) + length (c_api_calls c)
  + conditional_markers content.

(** ** Example inputs *)

(** Three hooks used once each, two call sites, one conditional. *)
Definition panel_source : string :=
  "const Panel = () => { const a = useAlpha(); const b = useBeta(); const c = useGamma(); if (a) { fetch(b); api.load(c); } return ( <View/> ); }".

(** The same with five conditional expressions more. *)
Definition busy_panel_source : string :=
  "const Panel = () => { const a = useAlpha(); const b = useBeta(); const c = useGamma(); if (a) { fetch(b); api.load(c); } const v = a ? 1 : 0; const w = b ? 1 : 0; const x = c ? 1 : 0; const y = a ? 2 : 3; const z = b ? 2 : 3; return ( <View/> ); }".

(** One hook used twice. *)
Definition form_source : string :=
  "const Form = () => { const [a, setA] = useState(0); const [b, setB] = useState(1); return ( <View/> ); }".

(** A service class in a service file. *)
Definition user_service_source : string :=
  "export class UserService { async load(id: string) { return fetch('/api/users'); } }".

(** Two files declaring an interface of the same name. *)
Definition first_interface_source : string := "interface Account { id: string; }".
Definition second_interface_source : string := "interface Account { owner: number; }".

(** The example statement of the specification. *)
Definition users_statement : string :=
  "CREATE TABLE IF NOT EXISTS Users (id TEXT PRIMARY KEY, orgId TEXT NOT NULL, FOREIGN KEY (orgId) REFERENCES Orgs(id))".



(** ** Observations on a run used in the statements below *)

(** The attributes of the budget are the same in [st'] as in [st]. *)
Definition same_summaries (st st' : index) : Prop :=
  total_lines st' = total_lines st ∧ file_summaries st' = file_summaries st.



(** The reportable lines a summary costs: its lines, and three for the file
    name and the separator. *)
Definition cost (summary_lines : list string) : Z :=
  (Z.of_nat (length summary_lines) + 3)%Z.




(** ** An example project *)













(** * Properties *)

(** ** Strings *)

Lemma split_acc_nonempty (sep : ascii) (s cur : string) : Py.split_acc sep s cur ≠ [].
Proof.
  revert cur. induction s as [|c s IH]; intros cur; simpl; [done|].
  destruct (Ascii.eqb c sep); [done | apply IH].
Qed.

Lemma split_names_nonempty (text : string) : split_names text ≠ [].
Proof.
  unfold split_names, Py.split.
  destruct (Py.split_acc "," text EmptyString) eqn:Hs; [|done].
  by apply split_acc_nonempty in Hs.
Qed.

(** ** Foreign keys *)

Lemma last_is_Some {A} (l : list A) : l ≠ [] → is_Some (last l).
Proof. intros Hl. destruct (last l) eqn:E; [eauto|]. by apply last_None in E. Qed.

(** The loop over the local columns never fails once there is a referenced
    column, and pairs column [i + k] with [ref_cols[i + k]], or with the last
    referenced column when there is none at that index. *)
Lemma fk_records_spec (ref_table : string) (ref_cols : list string) (last_ref : string) :
  last ref_cols = Some last_ref →
  ∀ (fk_cols : list string) (i : nat),
  ∃ fks, fk_records i fk_cols ref_table ref_cols = Some fks ∧
         length fks = length fk_cols ∧
         ∀ k fk_col, fk_cols !! k = Some fk_col →
           fks !! k = Some {| fk_column := fk_col; fk_ref_table := ref_table;
                              fk_ref_column := default last_ref (ref_cols !! (i + k)) |}.
Proof.
  intros Hlast fk_cols. induction fk_cols as [|c fk_cols IH]; intros i; simpl.
  - exists []. split_and!; [done..|]. intros k ? Hk. done.
  - assert (Href : (if i <? length ref_cols then Py.index ref_cols i
                    else Py.last_item ref_cols)
                   = Some (default last_ref (ref_cols !! i))).
    { unfold Py.index, Py.last_item. destruct (Nat.ltb_spec i (length ref_cols)) as [Hlt|Hge].
      - destruct (lookup_lt_is_Some_2 ref_cols i Hlt) as [x Hx]. by rewrite Hx.
      - rewrite (lookup_ge_None_2 ref_cols i Hge). done. }
    rewrite Href. destruct (IH (S i)) as (fks & Hfks & Hlen & Hnth).
    simpl. rewrite Hfks. simpl.
    eexists. split; [reflexivity|]. split. { simpl. by rewrite Hlen. }
    intros [|k] fk_col Hk; simpl in *.
    + injection Hk as <-. rewrite Nat.add_0_r. reflexivity.
    + rewrite (Hnth k fk_col Hk). replace (i + S k) with (S (i + k)) by lia. reflexivity.
Qed.

Lemma constraint_foreign_keys_total (db_names : gmap string string) (line : string) :
  is_Some (constraint_foreign_keys db_names line).
Proof.
  unfold constraint_foreign_keys.
  destruct (search flag_I fk_word_pattern line); [|eauto].
  destruct (search flag_I fk_pattern line) as [fk_match|]; [|eauto].
  destruct (last_is_Some _ (split_names_nonempty (group_str fk_match 3))) as [last_ref Hlast].
  destruct (fk_records_spec
              (resolve_ref_table db_names (Py.strip_chars quote_chars (group_str fk_match 2)))
              _ _ Hlast (split_names (group_str fk_match 1)) 0) as (fks & -> & _).
  eauto.
Qed.

Lemma process_line_total (db_names : gmap string string) (acc : table_acc) (line : string) :
  is_Some (process_line db_names acc line).
Proof.
  unfold process_line. destruct (match_ flag_I constraint_pattern line).
  - destruct (constraint_foreign_keys_total db_names line) as [fks ->]. simpl. eauto.
  - destruct (Py.words line) as [|p0 [|p1 ?]]; eauto.
Qed.

Lemma process_lines_total (db_names : gmap string string) (lines : list string) :
  ∀ acc, is_Some (process_lines db_names acc lines).
Proof.
  induction lines as [|line lines IH]; intros acc; simpl; [eauto|].
  destruct (process_line_total db_names acc line) as [acc' ->]. simpl. apply IH.
Qed.

Lemma table_schemas_total (db_names : gmap string string) (content file_path : string)
    (ms : list mres) :
  is_Some (table_schemas db_names content file_path ms).
Proof.
  induction ms as [|m ms [ss IH]]; simpl; [eauto|].
  unfold table_schema at 1.
  destruct (process_lines_total db_names
              (column_lines_of (Py.strip (group_str m 3)))
              {| acc_columns := []; acc_primary_keys := []; acc_foreign_keys := [] |})
    as [acc ->].
  simpl. rewrite IH. simpl. eauto.
Qed.

(** The schema recognizer returns for every text: the one indexing that
    could fail, [ref_cols[-1]], is applied to a list that [split] never
    leaves empty. *)
Lemma extract_database_schema_total (content file_path : string) :
  is_Some (extract_database_schema content file_path).
Proof. apply table_schemas_total. Qed.

(** C3, as stated: the recognizer does not report the column [id] as not
    nullable.  The record below is the one the claim describes; the
    recognizer returns another. *)
Lemma users_schema_id_not_nullable_fails :
  extract_database_schema users_statement "db.ts"
  ≠ Some [{| table_name := "Users";
             columns := [{| col_name := "id"; col_type := "TEXT";
                            col_nullable := false; col_default := None |};
                         {| col_name := "orgId"; col_type := "TEXT";
                            col_nullable := false; col_default := None |}];
             primary_keys := ["id"];
             foreign_keys := [{| fk_column := "orgId"; fk_ref_table := "Orgs";
                                 fk_ref_column := "id" |}];
             indices := [];
             description := None;
             schema_file_path := "db.ts" |}].
Proof. vm_compute. discriminate. Qed.

(** C3, amended: on the example statement the schema recognizer reports
    exactly the columns id:TEXT and orgId:TEXT, the column orgId not nullable
    and the column id nullable (nullability follows the words NOT NULL only,
    which the definition of id lacks), the primary-key list [id], and the one
    foreign-key record (orgId, Orgs, id). *)
Theorem users_schema :
  extract_database_schema users_statement "db.ts"
  = Some [{| table_name := "Users";
             columns := [{| col_name := "id"; col_type := "TEXT";
                            col_nullable := true; col_default := None |};
                         {| col_name := "orgId"; col_type := "TEXT";
                            col_nullable := false; col_default := None |}];
             primary_keys := ["id"];
             foreign_keys := [{| fk_column := "orgId"; fk_ref_table := "Orgs";
                                 fk_ref_column := "id" |}];
             indices := [];
             description := None;
             schema_file_path := "db.ts" |}].
Proof. vm_compute. reflexivity. Qed.



(** ** Components *)

Lemma track_complexity_app (name file_path : string) (n : nat) (l : list complexity_entry) :
  track_complexity name file_path n l
  = l ++ (if 10 <? n
          then [{| cx_name := name; cx_file_path := file_path; cx_complexity := n |}]
          else []).
Proof. unfold track_complexity. destruct (10 <? n); [done | by rewrite app_nil_r]. Qed.

Lemma flagged_cons (c : component) (cs : list component) :
  flagged (c :: cs)
  = (if 10 <? c_complexity c then [complexity_entry_of c] else []) ++ flagged cs.
Proof.
  unfold flagged. rewrite filter_cons.
  destruct (Nat.ltb_spec 10 (c_complexity c)); destruct (decide (10 < c_complexity c));
    try lia; done.
Qed.

Lemma functional_component_spec cfg content file_path m st :
  match functional_component cfg content file_path m st with
  | (None, st') => st' = st
  | (Some c, st') =>
      score_ok content c
      ∧ component_complexity st'
        = component_complexity st
          ++ (if 10 <? c_complexity c then [complexity_entry_of c] else [])
  end.
Proof.
  unfold functional_component.
  destruct (Py.endswith "Provider" (group_str m 1) || Py.endswith "Context" (group_str m 1));
    [done|].
  cbv zeta. split.
  - unfold score_ok. cbn. lia.
  - cbn [snd component_complexity set_component_props set_component_complexity].
    rewrite track_complexity_app.
    destruct (bool_decide _); reflexivity.
Qed.

Lemma class_component_spec cfg content file_path m st :
  match class_component cfg content file_path m st with
  | (c, st') =>
      score_ok content c
      ∧ component_complexity st'
        = component_complexity st
          ++ (if 10 <? c_complexity c then [complexity_entry_of c] else [])
  end.
Proof.
  unfold class_component. cbv zeta. split.
  - unfold score_ok. cbn. lia.
  - cbn [snd component_complexity set_component_complexity].
    rewrite track_complexity_app. reflexivity.
Qed.

Lemma functional_components_spec cfg content file_path ms :
  ∀ st, match functional_components cfg content file_path ms st with
        | (cs, st') =>
            Forall (score_ok content) cs
            ∧ component_complexity st' = component_complexity st ++ flagged cs
        end.
Proof.
  induction ms as [|m ms IH]; intros st; cbn [functional_components].
  - split; [constructor | by rewrite app_nil_r].
  - pose proof (functional_component_spec cfg content file_path m st) as Hm.
    destruct (functional_component cfg content file_path m st) as [oc st1].
    specialize (IH st1).
    destruct (functional_components cfg content file_path ms st1) as [cs st2].
    destruct IH as [Hcs Hst2]. destruct oc as [c|]; cbn -[flagged].
    + destruct Hm as [Hc Hst1]. split; [by constructor|].
      rewrite Hst2, Hst1, flagged_cons, <- app_assoc. reflexivity.
    + subst st1. done.
Qed.

Lemma class_components_spec cfg content file_path ms :
  ∀ st, match class_components cfg content file_path ms st with
        | (cs, st') =>
            Forall (score_ok content) cs
            ∧ component_complexity st' = component_complexity st ++ flagged cs
        end.
Proof.
  induction ms as [|m ms IH]; intros st; cbn [class_components].
  - split; [constructor | by rewrite app_nil_r].
  - pose proof (class_component_spec cfg content file_path m st) as Hm.
    destruct (class_component cfg content file_path m st) as [c st1].
    specialize (IH st1).
    destruct (class_components cfg content file_path ms st1) as [cs st2].
    destruct IH as [Hcs Hst2]. destruct Hm as [Hc Hst1]. cbn -[flagged]. split; [by constructor|].
    rewrite Hst2, Hst1, flagged_cons, <- app_assoc. reflexivity.
Qed.

Lemma flagged_app (cs1 cs2 : list component) : flagged (cs1 ++ cs2) = flagged cs1 ++ flagged cs2.
Proof. unfold flagged. by rewrite filter_app, map_app. Qed.

Lemma extract_react_component_spec cfg content file_path st :
  match extract_react_component cfg content file_path st with
  | (cs, st') =>
      Forall (score_ok content) cs
      ∧ component_complexity st' = component_complexity st ++ flagged cs
  end.
Proof.
  unfold extract_react_component.
  pose proof (functional_components_spec cfg content file_path
                (finditer no_flags func_component_pattern content) st) as Hf.
  destruct (functional_components _ _ _ _ st) as [funcs st1].
  pose proof (class_components_spec cfg content file_path
                (finditer no_flags class_component_pattern content) st1) as Hc.
  destruct (class_components _ _ _ _ st1) as [classes st2].
  destruct Hf as [Hf1 Hf2], Hc as [Hc1 Hc2]. split.
  - by apply Forall_app.
  - rewrite Hc2, Hf2, flagged_app, app_assoc. reflexivity.
Qed.

(** C5, as stated: the score does not count the distinct hook usages.  A
    component that calls one hook twice scores 2, not 1. *)
Lemma score_counts_repeated_hooks :
  ¬ Forall (λ c, c_complexity c = distinct_score form_source c)
           (extract_react_component DEFAULT_CONFIG form_source "Form.tsx" init_index).1.
Proof. vm_compute. intros H. inversion H as [|c cs Hc Hcs]. discriminate Hc. Qed.

(** C5, amended: the complexity score of a declaration is the number of hook
    usages found (each occurrence counting, not each distinct hook) plus the
    number of call sites plus the number of conditional-branch markers of the
    file (plus, for a class declaration, its state accesses), and the
    declarations appended to the global flagged list are exactly those whose
    score exceeds 10.  A declaration with three hooks used once each, two call
    sites and one conditional marker scores 6 and is not flagged; with five
    more conditional markers it scores 11 and is in the flagged list. *)
Theorem complexity_score (cfg : config) (content file_path : string) (st : index) :
  (Forall (score_ok content) (extract_react_component cfg content file_path st).1
   ∧ component_complexity (extract_react_component cfg content file_path st).2
     = component_complexity st
       ++ flagged (extract_react_component cfg content file_path st).1)
  ∧ (map c_complexity
         (extract_react_component DEFAULT_CONFIG panel_source "Panel.tsx" init_index).1 = [6]
     ∧ component_complexity
         (extract_react_component DEFAULT_CONFIG panel_source "Panel.tsx" init_index).2 = [])
  ∧ (map c_complexity
         (extract_react_component DEFAULT_CONFIG busy_panel_source "Panel.tsx" init_index).1
       = [11]
     ∧ component_complexity
         (extract_react_component DEFAULT_CONFIG busy_panel_source "Panel.tsx" init_index).2
       = [{| cx_name := "Panel"; cx_file_path := "Panel.tsx"; cx_complexity := 11 |}]).
Proof.
  split_and!.
  - pose proof (extract_react_component_spec cfg content file_path st) as H.
    destruct (extract_react_component cfg content file_path st) as [cs st']. apply H.
  - pose proof (extract_react_component_spec cfg content file_path st) as H.
    destruct (extract_react_component cfg content file_path st) as [cs st']. apply H.
  - vm_compute. reflexivity.
  - vm_compute. reflexivity.
  - vm_compute. reflexivity.
  - vm_compute. reflexivity.
Qed.

(** ** Recognizers and the index *)

Lemma functional_component_indep cfg content file_path m st1 st2 :
  (functional_component cfg content file_path m st1).1
  = (functional_component cfg content file_path m st2).1.
Proof.
  unfold functional_component.
  destruct (Py.endswith "Provider" (group_str m 1) || Py.endswith "Context" (group_str m 1));
    reflexivity.
Qed.

Lemma functional_components_indep cfg content file_path ms :
  ∀ st1 st2, (functional_components cfg content file_path ms st1).1
             = (functional_components cfg content file_path ms st2).1.
Proof.
  induction ms as [|m ms IH]; intros st1 st2; cbn [functional_components]; [done|].
  pose proof (functional_component_indep cfg content file_path m st1 st2) as Hm.
  destruct (functional_component cfg content file_path m st1) as [c1 st1'].
  destruct (functional_component cfg content file_path m st2) as [c2 st2'].
  specialize (IH st1' st2').
  destruct (functional_components cfg content file_path ms st1') as [cs1 ?].
  destruct (functional_components cfg content file_path ms st2') as [cs2 ?].
  cbn in *. by subst.
Qed.

Lemma class_components_indep cfg content file_path ms :
  ∀ st1 st2, (class_components cfg content file_path ms st1).1
             = (class_components cfg content file_path ms st2).1.
Proof.
  induction ms as [|m ms IH]; intros st1 st2; cbn [class_components]; [done|].
  assert ((class_component cfg content file_path m st1).1
          = (class_component cfg content file_path m st2).1) as Hm by reflexivity.
  destruct (class_component cfg content file_path m st1) as [c1 st1'].
  destruct (class_component cfg content file_path m st2) as [c2 st2'].
  specialize (IH st1' st2').
  destruct (class_components cfg content file_path ms st1') as [cs1 ?].
  destruct (class_components cfg content file_path ms st2') as [cs2 ?].
  cbn in *. by subst.
Qed.

Lemma extract_react_component_indep cfg content file_path st1 st2 :
  (extract_react_component cfg content file_path st1).1
  = (extract_react_component cfg content file_path st2).1.
Proof.
  unfold extract_react_component.
  pose proof (functional_components_indep cfg content file_path
                (finditer no_flags func_component_pattern content) st1 st2) as Hf.
  destruct (functional_components _ _ _ _ st1) as [f1 st1'].
  destruct (functional_components _ _ _ _ st2) as [f2 st2'].
  pose proof (class_components_indep cfg content file_path
                (finditer no_flags class_component_pattern content) st1' st2') as Hc.
  destruct (class_components _ _ _ _ st1') as [c1 ?].
  destruct (class_components _ _ _ _ st2') as [c2 ?].
  cbn in *. by subst.
Qed.

Lemma functional_component_frame cfg content file_path m st :
  outside_components (functional_component cfg content file_path m st).2
  = outside_components st.
Proof.
  unfold functional_component.
  destruct (Py.endswith "Provider" (group_str m 1) || Py.endswith "Context" (group_str m 1));
    [reflexivity|].
  cbv zeta. cbn [snd]. destruct (bool_decide _); reflexivity.
Qed.

Lemma functional_components_frame cfg content file_path ms :
  ∀ st, outside_components (functional_components cfg content file_path ms st).2
        = outside_components st.
Proof.
  induction ms as [|m ms IH]; intros st; cbn [functional_components]; [done|].
  pose proof (functional_component_frame cfg content file_path m st) as Hm.
  destruct (functional_component cfg content file_path m st) as [c st1].
  specialize (IH st1).
  destruct (functional_components cfg content file_path ms st1) as [cs st2].
  cbn [snd] in *. congruence.
Qed.

Lemma class_components_frame cfg content file_path ms :
  ∀ st, outside_components (class_components cfg content file_path ms st).2
        = outside_components st.
Proof.
  induction ms as [|m ms IH]; intros st; cbn [class_components]; [done|].
  assert (outside_components (class_component cfg content file_path m st).2
          = outside_components st) as Hm by reflexivity.
  destruct (class_component cfg content file_path m st) as [c st1].
  specialize (IH st1).
  destruct (class_components cfg content file_path ms st1) as [cs st2].
  cbn [snd] in *. congruence.
Qed.

Lemma extract_react_component_frame cfg content file_path st :
  outside_components (extract_react_component cfg content file_path st).2
  = outside_components st.
Proof.
  unfold extract_react_component.
  pose proof (functional_components_frame cfg content file_path
                (finditer no_flags func_component_pattern content) st) as Hf.
  destruct (functional_components _ _ _ _ st) as [f1 st1].
  pose proof (class_components_frame cfg content file_path
                (finditer no_flags class_component_pattern content) st1) as Hc.
  destruct (class_components _ _ _ _ st1) as [c1 st2].
  cbn [snd] in *. congruence.
Qed.

Lemma record_services_spec (found : list service) :
  ∀ st, services (record_services found st) = services st ++ found
        ∧ api_endpoints (record_services found st)
          = api_endpoints st ++ concat (map endpoints_of found)
        ∧ outside_services (record_services found st) = outside_services st.
Proof.
  induction found as [|s found IH]; intros st; cbn [record_services].
  - cbn. by rewrite !app_nil_r.
  - destruct (IH (set_api_endpoints
                    (api_endpoints (set_services (services st ++ [s]) st) ++ endpoints_of s)
                    (set_services (services st ++ [s]) st))) as (-> & -> & ->).
    cbn. by rewrite <- !app_assoc.
Qed.

(** C6, as stated: a recognizer has side effects.  Run on a service file,
    [extract_services] leaves an index that differs from the one it was
    given. *)
Lemma extract_services_writes_index :
  (extract_services user_service_source "src/services/UserService.ts" init_index).2
  ≠ init_index.
Proof. intros H. apply (f_equal services) in H. vm_compute in H. discriminate H. Qed.

Lemma functional_components_state_flows cfg content file_path ms :
  analyze_data_flow cfg = false →
  ∀ st, state_flows (functional_components cfg content file_path ms st).2 = state_flows st.
Proof.
  intros Hoff. induction ms as [|m ms IH]; intros st; cbn [functional_components]; [done|].
  assert (state_flows (functional_component cfg content file_path m st).2 = state_flows st)
    as Hm.
  { unfold functional_component.
    destruct (Py.endswith "Provider" (group_str m 1) || Py.endswith "Context" (group_str m 1));
      [reflexivity|].
    cbv zeta. rewrite Hoff. reflexivity. }
  destruct (functional_component cfg content file_path m st) as [c st1].
  specialize (IH st1).
  destruct (functional_components cfg content file_path ms st1) as [cs st2].
  cbn [snd] in *. congruence.
Qed.

Lemma class_components_state_flows cfg content file_path ms :
  ∀ st, state_flows (class_components cfg content file_path ms st).2 = state_flows st.
Proof.
  induction ms as [|m ms IH]; intros st; cbn [class_components]; [done|].
  assert (state_flows (class_component cfg content file_path m st).2 = state_flows st)
    as Hm by reflexivity.
  destruct (class_component cfg content file_path m st) as [c st1].
  specialize (IH st1).
  destruct (class_components cfg content file_path ms st1) as [cs st2].
  cbn [snd] in *. congruence.
Qed.

Lemma extract_react_component_state_flows cfg content file_path st :
  analyze_data_flow cfg = false →
  state_flows (extract_react_component cfg content file_path st).2 = state_flows st.
Proof.
  intros Hoff. unfold extract_react_component.
  pose proof (functional_components_state_flows cfg content file_path
                (finditer no_flags func_component_pattern content) Hoff st) as Hf.
  destruct (functional_components _ _ _ _ st) as [f1 st1].
  pose proof (class_components_state_flows cfg content file_path
                (finditer no_flags class_component_pattern content) st1) as Hc.
  destruct (class_components _ _ _ _ st1) as [c1 st2].
  cbn [snd] in *. congruence.
Qed.

(** C6, amended: for every file text and path each recognizer
    ([extract_react_component], [extract_hooks], [extract_services],
    [extract_types], [extract_navigation], [extract_state_management]) is a
    total, deterministic function; the facts it returns do not depend on the
    state of the project index, so the recognizers return identical results
    in whatever order they run; and [extract_database_schema], which writes
    nothing, returns for every input.  A recognizer does write to the index,
    each to its own attributes and to nothing else: [extract_services]
    appends the services it returns to [self.services] and their endpoints to
    [self.api_endpoints]; [extract_hooks] appends the hooks it returns to
    [self.hooks]; [extract_types] stores the interfaces it returns in
    [self.interfaces]; [extract_navigation] appends the routes it returns to
    [self.navigation_routes]; [extract_state_management] appends the
    patterns it returns to [self.state_management]; and
    [extract_react_component] writes [hook_usages], [api_calls],
    [component_complexity], [component_props], the two issue lists and
    [state_flows], the last one only when the data-flow analysis is on. *)
Theorem recognizers_and_index :
  (∀ cfg content file_path st1 st2,
     (extract_react_component cfg content file_path st1).1
     = (extract_react_component cfg content file_path st2).1)
  ∧ (∀ content file_path st1 st2,
       (extract_services content file_path st1).1
       = (extract_services content file_path st2).1)
  ∧ (∀ content file_path st,
       services (extract_services content file_path st).2
       = services st ++ (extract_services content file_path st).1
       ∧ api_endpoints (extract_services content file_path st).2
         = api_endpoints st
           ++ concat (map endpoints_of (extract_services content file_path st).1)
       ∧ outside_services (extract_services content file_path st).2
         = outside_services st)
  ∧ (∀ cfg content file_path st,
       outside_components (extract_react_component cfg content file_path st).2
       = outside_components st)
  ∧ (∀ cfg content file_path st,
       analyze_data_flow cfg = false →
       state_flows (extract_react_component cfg content file_path st).2 = state_flows st)
  ∧ (∀ content file_path st1 st2,
       (extract_hooks content file_path st1).1 = (extract_hooks content file_path st2).1
       ∧ (extract_types content file_path st1).1 = (extract_types content file_path st2).1
       ∧ (extract_navigation content file_path st1).1
         = (extract_navigation content file_path st2).1
       ∧ (extract_state_management content file_path st1).1
         = (extract_state_management content file_path st2).1)
  ∧ (∀ content file_path st,
       hooks (extract_hooks content file_path st).2
       = hooks st ++ (extract_hooks content file_path st).1
       ∧ set_hooks [] (extract_hooks content file_path st).2 = set_hooks [] st)
  ∧ (∀ content file_path st,
       interfaces (extract_types content file_path st).2
       = foldl (λ d i, record_interface i d) (interfaces st)
               (ti_interfaces (extract_types content file_path st).1)
       ∧ set_interfaces ∅ (extract_types content file_path st).2 = set_interfaces ∅ st)
  ∧ (∀ content file_path st,
       navigation_routes (extract_navigation content file_path st).2
       = navigation_routes st ++ (extract_navigation content file_path st).1
       ∧ set_navigation_routes [] (extract_navigation content file_path st).2
         = set_navigation_routes [] st)
  ∧ (∀ content file_path st,
       state_management (extract_state_management content file_path st).2
       = state_management st ++ (extract_state_management content file_path st).1
       ∧ set_state_management [] (extract_state_management content file_path st).2
         = set_state_management [] st)
  ∧ (∀ content file_path, is_Some (extract_database_schema content file_path)).
Proof.
  split_and!.
  - apply extract_react_component_indep.
  - intros content file_path st1 st2. unfold extract_services.
    destruct (negb _); reflexivity.
  - intros content file_path st. unfold extract_services.
    destruct (negb _); cbn [fst snd].
    + cbn. by rewrite !app_nil_r.
    + apply record_services_spec.
  - apply extract_react_component_frame.
  - intros cfg content file_path st Hoff. by apply extract_react_component_state_flows.
  - intros content file_path st1 st2. split_and!; try reflexivity.
    unfold extract_navigation. destruct (negb _); reflexivity.
  - intros content file_path st. split; reflexivity.
  - intros content file_path st. split; reflexivity.
  - intros content file_path st. unfold extract_navigation.
    destruct (negb _); cbn [fst snd]; split; try reflexivity. by rewrite app_nil_r.
  - intros content file_path st. split; reflexivity.
  - apply extract_database_schema_total.
Qed.

(** With the default configuration the data-flow analysis is off, and the
    component recognizer leaves [state_flows] as it found it. *)
Lemma recognizers_and_index_witness :
  state_flows (extract_react_component DEFAULT_CONFIG panel_source "Panel.tsx" init_index).2
  = state_flows init_index.
Proof.
  apply (proj1 (proj2 (proj2 (proj2 (proj2 recognizers_and_index))))
           DEFAULT_CONFIG panel_source "Panel.tsx" init_index).
  reflexivity.
Defined.

(** ** Accumulation in the index *)

Global Instance lists_extended_refl : Reflexive lists_extended.
Proof. intros st. unfold lists_extended. split_and!; reflexivity. Qed.

Global Instance lists_extended_trans : Transitive lists_extended.
Proof.
  intros st1 st2 st3 H12 H23. unfold lists_extended in *.
  destruct_and!. split_and!; etrans; eassumption.
Qed.

Lemma track_complexity_prefix name file_path n l :
  l `prefix_of` track_complexity name file_path n l.
Proof. rewrite track_complexity_app. by apply prefix_app_r. Qed.

Lemma record_issues_prefix name file_path issues l :
  l `prefix_of` record_issues name file_path issues l.
Proof. unfold record_issues. destruct (bool_decide _); [done | by apply prefix_app_r]. Qed.

Ltac extended :=
  unfold lists_extended; cbn;
  split_and!;
  first [ reflexivity
        | apply track_complexity_prefix
        | apply record_issues_prefix
        | by apply prefix_app_r ].

Lemma functional_component_extends cfg content file_path m st :
  lists_extended st (functional_component cfg content file_path m st).2.
Proof.
  unfold functional_component.
  destruct (Py.endswith "Provider" (group_str m 1) || Py.endswith "Context" (group_str m 1));
    [reflexivity|].
  cbv zeta. cbn [snd]. destruct (bool_decide _); extended.
Qed.

Lemma class_component_extends cfg content file_path m st :
  lists_extended st (class_component cfg content file_path m st).2.
Proof. unfold class_component. cbv zeta. cbn [snd]. extended. Qed.

Lemma functional_components_extends cfg content file_path ms :
  ∀ st, lists_extended st (functional_components cfg content file_path ms st).2.
Proof.
  induction ms as [|m ms IH]; intros st; cbn [functional_components]; [reflexivity|].
  pose proof (functional_component_extends cfg content file_path m st) as Hm.
  destruct (functional_component cfg content file_path m st) as [c st1].
  specialize (IH st1).
  destruct (functional_components cfg content file_path ms st1) as [cs st2].
  cbn [snd] in *. by etrans.
Qed.

Lemma class_components_extends cfg content file_path ms :
  ∀ st, lists_extended st (class_components cfg content file_path ms st).2.
Proof.
  induction ms as [|m ms IH]; intros st; cbn [class_components]; [reflexivity|].
  pose proof (class_component_extends cfg content file_path m st) as Hm.
  destruct (class_component cfg content file_path m st) as [c st1].
  specialize (IH st1).
  destruct (class_components cfg content file_path ms st1) as [cs st2].
  cbn [snd] in *. by etrans.
Qed.

Lemma extract_react_component_extends cfg content file_path st :
  lists_extended st (extract_react_component cfg content file_path st).2.
Proof.
  unfold extract_react_component.
  pose proof (functional_components_extends cfg content file_path
                (finditer no_flags func_component_pattern content) st) as Hf.
  destruct (functional_components _ _ _ _ st) as [f1 st1].
  pose proof (class_components_extends cfg content file_path
                (finditer no_flags class_component_pattern content) st1) as Hc.
  destruct (class_components _ _ _ _ st1) as [c1 st2].
  cbn [snd] in *. by etrans.
Qed.

Lemma record_services_extends (found : list service) :
  ∀ st, lists_extended st (record_services found st).
Proof.
  induction found as [|s found IH]; intros st; cbn [record_services]; [reflexivity|].
  etrans; [|apply IH]. extended.
Qed.

Lemma extract_services_extends content file_path st :
  lists_extended st (extract_services content file_path st).2.
Proof.
  unfold extract_services. destruct (negb _); cbn [snd];
    [reflexivity | apply record_services_extends].
Qed.

Lemma extract_hooks_extends content file_path st :
  lists_extended st (extract_hooks content file_path st).2.
Proof. unfold extract_hooks. cbn [snd]. extended. Qed.

Lemma extract_types_extends content file_path st :
  lists_extended st (extract_types content file_path st).2.
Proof. unfold extract_types. cbn [snd]. extended. Qed.

Lemma extract_navigation_extends content file_path st :
  lists_extended st (extract_navigation content file_path st).2.
Proof.
  unfold extract_navigation. destruct (negb _); cbn [snd]; [reflexivity | extended].
Qed.

Lemma extract_state_management_extends content file_path st :
  lists_extended st (extract_state_management content file_path st).2.
Proof. unfold extract_state_management. cbv zeta. cbn [snd]. extended. Qed.

Lemma process_tsx_file_extends E cfg file_path st :
  lists_extended st (process_tsx_file E cfg file_path st).2.
Proof.
  unfold process_tsx_file. destruct (read_text E file_path) as [content|]; [|reflexivity].
  pose proof (extract_react_component_extends cfg content file_path st) as H1.
  destruct (extract_react_component cfg content file_path st) as [? st1].
  pose proof (extract_hooks_extends content file_path st1) as H2.
  destruct (extract_hooks content file_path st1) as [? st2].
  pose proof (extract_services_extends content file_path st2) as H3.
  destruct (extract_services content file_path st2) as [? st3].
  pose proof (extract_types_extends content file_path st3) as H4.
  destruct (extract_types content file_path st3) as [? st4].
  pose proof (extract_navigation_extends content file_path st4) as H5.
  destruct (extract_navigation content file_path st4) as [? st5].
  pose proof (extract_state_management_extends content file_path st5) as H6.
  destruct (extract_state_management content file_path st5) as [? st6].
  cbn [snd] in *. repeat (etrans; [eassumption|]). reflexivity.
Qed.

Lemma enhanced_block_extends E ext file_path info st :
  lists_extended st (enhanced_block E ext file_path info st).2.
Proof.
  unfold enhanced_block. destruct (read_text E file_path) as [content|]; [|reflexivity].
  destruct (extract_database_schema content file_path) as [schemas|]; [|reflexivity].
  destruct (is_source_ext ext); cbn [snd]; extended.
Qed.

Lemma process_file_extends E cfg file_path st :
  lists_extended st (process_file E cfg file_path st).2.
Proof.
  unfold process_file. destruct (is_source_ext (file_ext file_path)).
  - pose proof (process_tsx_file_extends E cfg file_path st) as H1.
    destruct (process_tsx_file E cfg file_path st) as [info st1].
    pose proof (enhanced_block_extends E (file_ext file_path) file_path info st1) as H2.
    destruct (enhanced_block E (file_ext file_path) file_path info st1) as [info' st2].
    cbn [snd] in *. by etrans.
  - destruct (String.eqb (file_ext file_path) ".json").
    + destruct (load_json E file_path); [| |reflexivity].
      * match goal with |- context [enhanced_block ?a ?b ?c ?d ?e] =>
          pose proof (enhanced_block_extends a b c d e) as H;
          destruct (enhanced_block a b c d e) end. apply H.
      * match goal with |- context [enhanced_block ?a ?b ?c ?d ?e] =>
          pose proof (enhanced_block_extends a b c d e) as H;
          destruct (enhanced_block a b c d e) end. apply H.
    + match goal with |- context [enhanced_block ?a ?b ?c ?d ?e] =>
        pose proof (enhanced_block_extends a b c d e) as H;
        destruct (enhanced_block a b c d e) end. apply H.
Qed.

Lemma record_interfaces_other (name : string) (later : list interface) :
  Forall (λ j, i_name j ≠ name) later →
  ∀ d, foldl (λ d i, record_interface i d) d later !! name = d !! name.
Proof.
  induction 1 as [|j later Hj _ IH]; intros d; cbn [foldl]; [done|].
  rewrite IH. unfold record_interface. by rewrite lookup_insert_ne.
Qed.

(** C7, as stated: the index overwrites a fact.  Two files declare an
    interface [Account]; after the second the index holds one entry under
    that name, the one of the second file, and the first is gone. *)
Lemma second_interface_overwrites_first :
  let st1 := (extract_types first_interface_source "a.ts" init_index).2 in
  let st2 := (extract_types second_interface_source "b.ts" st1).2 in
  interfaces st1 !! "Account"
  = Some {| ie_file_path := "a.ts"; ie_parent := None;
            ie_properties := [{| p_name := "id"; p_type := "string" |}] |}
  ∧ interfaces st2 !! "Account"
    = Some {| ie_file_path := "b.ts"; ie_parent := None;
              ie_properties := [{| p_name := "owner"; p_type := "number" |}] |}
  ∧ size (interfaces st2) = 1.
Proof. vm_compute. done. Qed.

(** C7, amended: the list-valued categories of the project index are
    append-only: processing a file leaves every fact list with its earlier
    content as a prefix, so nothing is removed, changed or unified there.
    The dictionaries keyed by name keep one entry per name: the interface
    recorded under a name is the last one declared with it, and the
    properties recorded for a component are those of the match processed
    last, whatever the index held under that name before. *)
Theorem index_accumulation :
  (∀ E cfg file_path st, lists_extended st (process_file E cfg file_path st).2)
  ∧ (∀ content file_path st earlier i later,
       ti_interfaces (extract_types content file_path st).1 = earlier ++ i :: later →
       Forall (λ j, i_name j ≠ i_name i) later →
       interfaces (extract_types content file_path st).2 !! i_name i = Some (entry_of i))
  ∧ (∀ cfg content file_path m st c,
       (functional_component cfg content file_path m st).1 = Some c →
       component_props (functional_component cfg content file_path m st).2 !! c_name c
       = Some (c_props c)).
Proof.
  split_and!.
  - apply process_file_extends.
  - intros content file_path st earlier i later Hfound Hlater.
    unfold extract_types in *. cbn [fst snd ti_interfaces interfaces set_interfaces] in *.
    rewrite Hfound, foldl_app. cbn [foldl].
    rewrite (record_interfaces_other _ _ Hlater). unfold record_interface.
    by rewrite lookup_insert_eq.
  - intros cfg content file_path m st c. unfold functional_component.
    destruct (Py.endswith "Provider" (group_str m 1) || Py.endswith "Context" (group_str m 1));
      [discriminate|].
    cbv zeta. cbn [fst snd]. intros [= <-]. cbn. by rewrite lookup_insert_eq.
Qed.

Lemma index_accumulation_witness :
  interfaces (extract_types second_interface_source "b.ts"
                (extract_types first_interface_source "a.ts" init_index).2).2
    !! "Account"
  = Some {| ie_file_path := "b.ts"; ie_parent := None;
            ie_properties := [{| p_name := "owner"; p_type := "number" |}] |}.
Proof.
  apply (proj1 (proj2 index_accumulation) second_interface_source "b.ts"
           (extract_types first_interface_source "a.ts" init_index).2 []
           {| i_name := "Account"; i_file_path := "b.ts"; i_parent := None;
              i_properties := [{| p_name := "owner"; p_type := "number" |}] |} []).
  - vm_compute. reflexivity.
  - constructor.
Defined.

(** ** The budget attributes are written by the coordinator only *)

Global Instance same_summaries_refl : Reflexive same_summaries.
Proof. by intros st. Qed.

Global Instance same_summaries_trans : Transitive same_summaries.
Proof. intros st1 st2 st3 [H1 H2] [H3 H4]. split; congruence. Qed.










(** ** The counters of a run *)






(** ** The line budget *)






(** ** Configuration *)





(** ** Output formats *)

(** C8: the selector [html] is accepted by the command line and dispatched
    by [generate_output], whose docstring lists it, but the class has no
    HTML renderer: the call raises instead of returning a string, and a run
    with that selector produces no output.  The text selector returns the
    text report, and a selector outside the four raises [ValueError]. *)
Theorem html_output_raises (E : env) (st : index) :
  generate_output E st "html"
  = Raise (AttributeError
             "'CodeContextExtractor' object has no attribute 'generate_html_output'")
  ∧ (∀ cfg fl, ∃ r, extract_context E cfg (Ok fl) "html" st = Some r
                    ∧ run_output r = None)
  ∧ generate_output E st "text" = Ok (generate_text_output E st)
  ∧ generate_output E st "xml" = Raise (ValueError "Unsupported output format: xml").
Proof.
  split_and!; [reflexivity | | reflexivity | reflexivity].
  intros cfg fl. unfold extract_context.
  destruct (process_files E cfg _ _ no_counts) as [st' c]. eexists. split; reflexivity.
Qed.

(** ** Text inside a report *)


Lemma append_empty (s : string) : EmptyString +:+ s = s.
Proof. reflexivity. Qed.








(** ** Grouping and sorting *)









(** ** Remainder markers *)










